(** * SublimeLinter3, [lint/linter.py]: the dispatch and output-parsing core

    A shallow embedding of the [Linter] class of [src/lint/linter.py] and
    the properties of its specification that concern it.

    Layout: the Python values and builtins the module relies on, the
    external collaborators ([re], [lint.highlight], [lint.util],
    [lint.persist]) as an interface, the methods of [Linter] in source
    order of dependency, then the theorems. *)

From stdpp Require Import gmap strings list fin_maps.
From Stdlib Require Import ZArith Ascii String Lia.

Set Default Proof Using "Type".

(** ** Python values and builtins *)

Module Py.

(** The exceptions that can leave the methods modelled below. *)
Inductive exn :=
| NotImplementedError
| KeyError (key : string)
| TypeError
| ValueError
| AttributeError
| IndexError
| NameError.

(** A computation that returns or raises. *)
Inductive res (A : Type) :=
| Ret (a : A)
| Raise (e : exn).
Arguments Ret {A} a.
Arguments Raise {A} e.

#[export] Instance res_ret : MRet res := @Ret.
#[export] Instance res_bind : MBind res := λ A B f m,
  match m with Ret a => f a | Raise e => Raise e end.

#[export] Instance exn_eq_dec : EqDecision exn.
Proof. solve_decision. Defined.

(** JSON-like values held by the settings dictionaries. *)
Inductive value :=
| VNone
| VBool (b : bool)
| VInt (z : Z)
| VStr (s : string).

#[export] Instance value_eq_dec : EqDecision value.
Proof. solve_decision. Defined.

(** [bool(v)]. *)
Definition truthy (v : value) : bool :=
  match v with
  | VNone => false
  | VBool b => b
  | VInt z => negb (z =? 0)%Z
  | VStr s => negb (String.eqb s "")
  end.

(** Truth value of an optional string: [None] and [''] are false. *)
Definition truthy_str (o : option string) : bool :=
  match o with
  | Some s => negb (String.eqb s "")
  | None => false
  end.

(** Characters removed by [str.strip()] (code points below 256). *)
Definition is_space (c : ascii) : bool :=
  let n := nat_of_ascii c in
  (Nat.leb 9 n && Nat.leb n 13) || (Nat.leb 28 n && Nat.leb n 32)
  || Nat.eqb n 133 || Nat.eqb n 160.

Fixpoint lstrip (l : list ascii) : list ascii :=
  match l with
  | c :: r => if is_space c then lstrip r else l
  | [] => []
  end.

Definition strip_chars (l : list ascii) : list ascii :=
  rev (lstrip (rev (lstrip l))).

(** [s.strip()]. *)
Definition strip (s : string) : string :=
  string_of_list_ascii (strip_chars (list_ascii_of_string s)).

(** Line boundaries of [str.splitlines()] other than CR and CR LF. *)
Definition is_linebreak (c : ascii) : bool :=
  let n := nat_of_ascii c in
  Nat.eqb n 10 || Nat.eqb n 11 || Nat.eqb n 12
  || Nat.eqb n 28 || Nat.eqb n 29 || Nat.eqb n 30 || Nat.eqb n 133.

Fixpoint splitlines_from (cur : list ascii) (l : list ascii)
  : list (list ascii) :=
  match l with
  | [] => match cur with [] => [] | _ => [rev cur] end
  | c :: rest =>
      if Nat.eqb (nat_of_ascii c) 13 then
        match rest with
        | c' :: rest' =>
            if Nat.eqb (nat_of_ascii c') 10
            then rev cur :: splitlines_from [] rest'
            else rev cur :: splitlines_from [] rest
        | [] => [rev cur]
        end
      else if is_linebreak c then rev cur :: splitlines_from [] rest
      else splitlines_from (c :: cur) rest
  end.

(** [s.splitlines()]. *)
Definition splitlines (s : string) : list string :=
  string_of_list_ascii <$> splitlines_from [] (list_ascii_of_string s).

Definition digit_val (c : ascii) : option Z :=
  let n := nat_of_ascii c in
  if Nat.leb 48 n && Nat.leb n 57 then Some (Z.of_nat (n - 48)) else None.

Fixpoint digits_val (acc : Z) (l : list ascii) : option Z :=
  match l with
  | [] => Some acc
  | c :: r =>
      match digit_val c with
      | Some d => digits_val (10 * acc + d) r
      | None => None
      end
  end.

Definition unsigned_val (l : list ascii) : res Z :=
  match l with
  | [] => Raise ValueError
  | _ => match digits_val 0 l with
         | Some z => Ret z
         | None => Raise ValueError
         end
  end.

(** [int(s)] on a string: surrounding whitespace, an optional sign and
    decimal digits; anything else is a [ValueError]. *)
Definition int_of_str (s : string) : res Z :=
  match strip_chars (list_ascii_of_string s) with
  | "-"%char :: ds => z ← unsigned_val ds; mret (- z)%Z
  | "+"%char :: ds => unsigned_val ds
  | ds => unsigned_val ds
  end.

(** [int(x)] where [x] is a string or [None]: [int(None)] is a
    [TypeError]. *)
Definition int_of (x : option string) : res Z :=
  match x with
  | Some s => int_of_str s
  | None => Raise TypeError
  end.

(** [str(x)] where [x] is a string or [None]. *)
Definition str_of (x : option string) : string :=
  match x with
  | Some s => s
  | None => "None"
  end.

Definition lower_char (c : ascii) : ascii :=
  let n := nat_of_ascii c in
  if Nat.leb 65 n && Nat.leb n 90 then ascii_of_nat (n + 32) else c.

(** [s.lower()] on ASCII letters. *)
Definition lower (s : string) : string :=
  string_of_list_ascii (lower_char <$> list_ascii_of_string s).

(** Index normalisation of a slice bound against a length. *)
Definition clamp (i len : Z) : Z :=
  if (i <? 0)%Z then Z.max 0 (i + len) else Z.min i len.

(** [s[a:b]] for integer bounds. *)
Definition slice (s : string) (a b : Z) : string :=
  let len := Z.of_nat (String.length s) in
  let a' := clamp a len in
  let b' := clamp b len in
  String.substring (Z.to_nat a') (Z.to_nat (b' - a')) s.

(** [d[k]] on a dictionary with string keys. *)
Definition getitem {V} (d : gmap string V) (k : string) : res V :=
  match d !! k with
  | Some v => Ret v
  | None => Raise (KeyError k)
  end.

End Py.
Import Py.

(** ** The [re] module, as far as [Linter] uses it *)

(** A match object, reduced to [groupdict()]: every named group of the
    pattern, bound to the text it captured or to [None] when the group
    did not take part in the match. *)
Record Match := { groupdict : gmap string (option string) }.

(** A compiled pattern: [finditer] lists the matches found by scanning a
    text, [pmatch] is the anchored [match]. *)
Record Pattern := {
  finditer : string → list Match;
  pmatch : string → option Match;
}.

(** What [self.regex.finditer(output)] evaluates to: an iterator object.
    [if errors:] takes its truth value, and an iterator defines neither
    [__bool__] nor [__len__], so it is true whatever it will produce. *)
Record iterator (A : Type) := Iter { iter_items : list A }.
Arguments Iter {A} _.
Arguments iter_items {A} _.

Definition iterator_truth {A} (it : iterator A) : bool := true.

(** The [regex] attribute: the source text of the class attribute, or the
    compiled pattern once [__init__] succeeded in compiling it. *)
Inductive regex_attr :=
| RegexSource (src : string)
| RegexCompiled (p : Pattern).

Definition regex_truth (r : regex_attr) : bool :=
  match r with
  | RegexSource s => negb (String.eqb s "")
  | RegexCompiled _ => true
  end.

(** The column of a parse result: [None], the empty string a group may
    capture, or an integer. *)
Inductive column :=
| ColNone
| ColEmpty
| ColInt (c : Z).

(** The tuple [match, row, col, error, near] returned by
    [split_match]. *)
Definition parsed : Type :=
  option Match * option Z * column * option string * option string.

(** [{'row':None, 'col':None, 'error':'', 'near':None}] *)
Definition split_defaults : gmap string (option string) :=
  {[ "row" := None; "col" := None; "error" := Some ""; "near" := None ]}.

(** [Linter.split_match] (lines 281-293). [items.update(d)] keeps the
    bindings of [d] over those of [items]. *)
Definition split_match (m : option Match) : res parsed :=
  match m with
  | Some mt =>
      let items := groupdict mt ∪ split_defaults in
      error ← getitem items "error";
      row ← getitem items "line";
      col ← getitem items "col";
      near ← getitem items "near";
      row ← int_of row;
      let row := (row - 1)%Z in
      col ← (if truthy_str col
             then c ← int_of col; mret (ColInt (c - 1))
             else mret (match col with Some _ => ColEmpty | None => ColNone end));
      mret (Some mt, Some row, col, error, near)
  | None => mret (None, None, ColNone, Some "", None)
  end.

(** [Linter.match_error] (lines 295-298), on a line of text. *)
Definition match_error (r : regex_attr) (line : string) : res parsed :=
  match r with
  | RegexCompiled p => split_match (pmatch p line)
  | RegexSource _ => Raise AttributeError
  end.

(** [Linter.find_errors] (lines 269-279). The generator is the list of
    the results it yields in order; an element [Raise e] is the point
    where resuming the generator raises [e]. *)
Definition find_errors (multiline : bool) (regex : regex_attr)
    (output : string) : list (res parsed) :=
  if multiline then
    match regex with
    | RegexCompiled p =>
        let errors := Iter (finditer p output) in
        if iterator_truth errors
        then (λ error, split_match (Some error)) <$> iter_items errors
        else [split_match None]
    | RegexSource _ => [Raise AttributeError]
    end
  else
    (λ line, match_error regex (strip line)) <$> splitlines output.

(** [syntax_re = re.compile(r'/([^/]+)\.tmLanguage$')] (line 9) and its
    [search]: the group is the run of characters other than [/] that
    stands between the last [/] and a final [.tmLanguage] ([$] also
    matches before one trailing newline). *)
Fixpoint after_last_slash (cur : list ascii) (rev_text : list ascii)
  : option (list ascii) :=
  match rev_text with
  | [] => None
  | c :: rest =>
      if Ascii.eqb c "/" then Some cur
      else after_last_slash (c :: cur) rest
  end.

Definition drop_suffix (suffix s : list ascii) : option (list ascii) :=
  let n := (List.length s - List.length suffix)%nat in
  if decide (List.length suffix ≤ List.length s ∧ drop n s = suffix)
  then Some (take n s) else None.

Definition syntax_re_search (syn : string) : option string :=
  let s := list_ascii_of_string syn in
  let body :=
    match drop_suffix (list_ascii_of_string ".tmLanguage") s with
    | Some b => Some b
    | None =>
        b ← drop_suffix ["010"%char] s;
        drop_suffix (list_ascii_of_string ".tmLanguage") b
    end in
  b ← body;
  g ← after_last_slash [] (rev b);
  match g with
  | [] => None
  | _ => Some (string_of_list_ascii g)
  end.

(** ** The collaborators outside [linter.py] *)

(** [lint.highlight.Highlight], [re.compile] and [lint.util.communicate]
    are not part of this module; it uses them through this interface.
    A [Highlight] is taken to be true as an object. *)
Class Collaborators := {
  Highlight : Type;
  (** [Highlight(code, scope=.., outline=..)], omitted arguments [None] *)
  hl_new : option string → string → option bool → Highlight;
  (** [h.shift(line_offset, left)] *)
  hl_shift : Z → Z → Highlight → Highlight;
  (** [h.full_line(row)] *)
  hl_full_line : Z → Highlight → Z * Z;
  (** [h.range(row, col)] *)
  hl_range : Z → Z → Highlight → Highlight;
  (** [h.near(row, near)] *)
  hl_near : Z → string → Highlight → Highlight;
  (** [h.line(row)] *)
  hl_line : option Z → Highlight → Highlight;
  (** [re.compile(regex, flags)], [None] when it raises *)
  re_compile : string → Z → option Pattern;
  (** [util.communicate(cmd, code)]: the text the checker printed *)
  communicate : list string → string → string;
}.

(** ** The class [Linter] *)

(** The [language] attribute: a string, or a tuple or list of them. *)
Inductive language_attr :=
| LangStr (s : string)
| LangSeq (l : list string).

Definition language_truth (l : language_attr) : bool :=
  match l with
  | LangStr s => negb (String.eqb s "")
  | LangSeq l => match l with [] => false | _ => true end
  end.

(** The attributes a checker class declares and this module only reads
    (lines 16-26), with the class name. *)
Record Attrs := {
  name : string;
  language : language_attr;
  cmd : list string;
  regex_src : string;
  multiline : bool;
  cls_flags : Z;
  tab_size : Z;
  scope : string;
  selector : option string;
  outline : bool;
  needs_api : bool;
}.

Abbreviation settings_dict := (gmap string value).

(** A class object: its declaration and the two attributes this module
    assigns or updates, [defaults] and [lint_settings]. *)
Record LinterClass := {
  attrs : Attrs;
  defaults : option settings_dict;
  lint_settings : option settings_dict;
}.

(** The view of the editor, as far as [assign] reads it. *)
Record View := {
  view_id : Z;
  view_syntax : option string;
  view_file_name : option string;
}.

(** A call of the external checker: [cmd] and the text given to it. *)
Definition invocation : Type := list string * string.

(** [re.MULTILINE] *)
Definition re_MULTILINE : Z := 8.

Section Model.
Context `{Collaborators}.

(** An instance: its class declaration and the attributes the instance
    itself carries. [errors] is [None] until [pre_lint] assigns a
    dictionary (line 28); its keys are rows, [None] or an integer. *)
Record Linter := {
  klass : Attrs;
  view : View;
  syntax : string;
  filename : option string;
  regex : regex_attr;
  flags : Z;
  errors : option (gmap (option Z) (list string));
  highlight : Highlight;
}.

Definition set_errors (e : option (gmap (option Z) (list string)))
    (self : Linter) : Linter :=
  {| klass := klass self; view := view self; syntax := syntax self;
     filename := filename self; regex := regex self; flags := flags self;
     errors := e; highlight := highlight self |}.

Definition set_highlight (h : Highlight) (self : Linter) : Linter :=
  {| klass := klass self; view := view self; syntax := syntax self;
     filename := filename self; regex := regex self; flags := flags self;
     errors := errors self; highlight := h |}.

Definition set_filename (f : option string) (self : Linter) : Linter :=
  {| klass := klass self; view := view self; syntax := syntax self;
     filename := f; regex := regex self; flags := flags self;
     errors := errors self; highlight := highlight self |}.

(** [Linter.__init__] (lines 33-47). *)
Definition init (a : Attrs) (v : View) (syn : string)
    (fname : option string) : Linter :=
  let fl :=
    if negb (String.eqb (regex_src a) "") && multiline a
    then Z.lor (cls_flags a) re_MULTILINE else cls_flags a in
  let rx :=
    if negb (String.eqb (regex_src a) "") then
      match re_compile (regex_src a) fl with
      | Some p => RegexCompiled p
      | None => RegexSource (regex_src a)
      end
    else RegexSource (regex_src a) in
  {| klass := a; view := v; syntax := syn; filename := fname;
     regex := rx; flags := fl; errors := None;
     highlight := hl_new None (scope a) None |}.

(** [Linter.can_lint] (lines 249-258); [None] when the method falls
    off its end. *)
Definition can_lint (a : Attrs) (lang : string) : option bool :=
  let lang := lower lang in
  if language_truth (language a) then
    match language a with
    | LangStr s => Some (bool_decide (lang = s))
    | LangSeq l => Some (bool_decide (lang ∈ l))
    end
  else None.

(** [Linter.error] (lines 260-267). *)
Definition error (line : option Z) (err : option string) (self : Linter)
  : res unit * Linter :=
  let self := set_highlight (hl_line line (highlight self)) self in
  let err := str_of err in
  match errors self with
  | None => (Raise TypeError, self)
  | Some d =>
      let d' :=
        match d !! line with
        | Some msgs => <[line := msgs ++ [err]]> d
        | None => <[line := [err]]> d
        end in
      (Ret (), set_errors (Some d') self)
  end.

(** Lines 221-231: the column handed to [highlight.range]. With a tab
    size above 1 the line of the row is cut out of the text and line 225
    starts a loop over [xrange(len(code_line))]. The module is Python 3
    (lines 1 and 15) and binds no [xrange]: evaluating the name raises
    [NameError] before the first turn of the loop, so the body of lines
    226-231 is never entered. *)
Definition adjust_col (self : Linter) (code : string) (row col : Z)
  : res Z :=
  if (1 <? tab_size (klass self))%Z then
    let '(start, stop) := hl_full_line row (highlight self) in
    let code_line := slice code start stop in
    Raise NameError
  else Ret col.

(** Lines 218-237: the highlight asked for one match, by its row, its
    column and its [near]; the instance with that highlight. *)
Definition mark_position (code : string) (row : option Z) (col : column)
    (near : option string) (self : Linter) : res Linter :=
  match row with
  | Some r =>
      if negb (r =? 0)%Z || (r =? 0)%Z then
        match col with
        | ColInt c =>
            c ← adjust_col self code r c;
            mret (set_highlight (hl_range r c (highlight self)) self)
        | _ =>
            match near with
            | Some n =>
                if negb (String.eqb n "")
                then mret (set_highlight (hl_near r n (highlight self)) self)
                else mret (set_highlight
                             (hl_line (Some r) (highlight self)) self)
            | None =>
                mret (set_highlight (hl_line (Some r) (highlight self)) self)
            end
        end
      else mret self
  | None => mret self
  end.

(** The body of the loop of [lint] (lines 217-239) for one parse
    result. *)
Definition lint_step (code : string) (p : parsed) (self : Linter)
  : res unit * Linter :=
  let '(m, row, col, message, near) := p in
  match m with
  | Some _ =>
      match mark_position code row col near self with
      | Ret self => error row message self
      | Raise e => (Raise e, self)
      end
  | None => (Ret (), self)
  end.

(** The [for] loop of [lint] over the generator. *)
Fixpoint lint_loop (code : string) (items : list (res parsed))
    (self : Linter) : res unit * Linter :=
  match items with
  | [] => (Ret (), self)
  | Raise e :: _ => (Raise e, self)
  | Ret p :: rest =>
      match lint_step code p self with
      | (Ret _, self) => lint_loop code rest self
      | (Raise e, self) => (Raise e, self)
      end
  end.

(** The definition is complete (line 209). *)
Definition complete (self : Linter) : bool :=
  language_truth (language (klass self))
  && match cmd (klass self) with [] => false | _ => true end
  && regex_truth (regex self).

(** [Linter.lint] (lines 208-239): the outcome, the instance afterwards
    and the calls of the external checker it made. *)
Definition lint (code : string) (self : Linter)
  : res unit * Linter * list invocation :=
  if negb (complete self) then (Raise NotImplementedError, self, [])
  else
    let output := communicate (cmd (klass self)) code in
    let calls := [(cmd (klass self), code)] in
    if negb (String.eqb output "") then
      let '(r, self) :=
        lint_loop code
          (find_errors (multiline (klass self)) (regex self) output) self in
      (r, self, calls)
    else (Ret (), self, calls).

(** [Linter.pre_lint] (lines 187-206). With [needs_api] the call of
    [lint] goes through a queue that is filled, emptied and joined in
    this same thread, around the same call. *)
Definition pre_lint (code : string) (hl : option Highlight) (self : Linter)
  : res unit * Linter * list invocation :=
  let self := set_errors (Some ∅) self in
  let self :=
    set_highlight
      (match hl with
       | Some h => h
       | None => hl_new (Some code) (scope (klass self))
                   (Some (outline (klass self)))
       end) self in
  if String.eqb code "" then (Ret (), self, [])
  else if needs_api (klass self) then lint code self
  else lint code self.

(** *** Class methods and the process-wide tables *)

Definition set_defaults (d : option settings_dict) (c : LinterClass)
  : LinterClass :=
  {| attrs := attrs c; defaults := d; lint_settings := lint_settings c |}.

Definition set_lint_settings (d : option settings_dict) (c : LinterClass)
  : LinterClass :=
  {| attrs := attrs c; defaults := defaults c; lint_settings := d |}.

(** [Linter.get_settings] (lines 49-54): the dictionary returned and
    the class afterwards. [cls.defaults or {}] is the dictionary
    [cls.defaults] itself when that is not empty, so the [update] is
    then made on the class attribute. *)
Definition get_settings (plugins : gmap string settings_dict)
    (c : LinterClass) : settings_dict * LinterClass :=
  let overrides := default ∅ (plugins !! name (attrs c)) in
  match defaults c with
  | Some d =>
      if bool_decide (d = ∅) then (overrides ∪ ∅, c)
      else (overrides ∪ d, set_defaults (Some (overrides ∪ d)) c)
  | None => (overrides ∪ ∅, c)
  end.

(** The first loop of [Linter.reload] (lines 114-119) on one class: it
    updates a copy of the defaults. *)
Definition reload_settings (plugins : gmap string settings_dict)
    (c : LinterClass) : LinterClass :=
  let settings := default ∅ (plugins !! name (attrs c)) in
  let copy := default ∅ (defaults c) in
  set_lint_settings (Some (settings ∪ copy)) c.

(** A section of the text: [(line_offset, left, right)]. *)
Definition section : Type := Z * Z * Z.

(** The state shared by the class methods: [persist.languages] (the
    class objects, by name), [persist.linters] (the instances of every
    view; a set is listed in the order in which Python iterates it),
    the plugin settings, and what reached the outside: the calls of
    checkers, the instances whose marks were cleared from their view
    and the results handed to the callback. *)
Record World := {
  languages : gmap string LinterClass;
  linters : gmap Z (list Linter);
  plugins : gmap string settings_dict;
  invoked : list invocation;
  cleared : list Linter;
  delivered : list (View * list Linter);
}.

Definition set_linters (m : gmap Z (list Linter)) (w : World) : World :=
  {| languages := languages w; linters := m; plugins := plugins w;
     invoked := invoked w; cleared := cleared w;
     delivered := delivered w |}.

(** [Linter.remove] (lines 101-107). *)
Definition remove (vid : Z) (w : World) : World :=
  match linters w !! vid with
  | Some ls =>
      {| languages := languages w; linters := delete vid (linters w);
         plugins := plugins w; invoked := invoked w;
         cleared := cleared w ++ ls; delivered := delivered w |}
  | None => w
  end.

(** The instances built by the loop of lines 89-93. *)
Definition build_linters (v : View) (token : string)
    (classes : list (string * LinterClass)) : list Linter :=
  foldl (λ acc entry,
           if bool_decide (can_lint (attrs entry.2) token = Some true)
           then acc ++ [init (attrs entry.2) v token (view_file_name v)]
           else acc)
        [] classes.

(** Lines 77-82: the group of [syntax_re] when it matches, the setting
    itself otherwise. *)
Definition syntax_token (syn : string) : string :=
  match syntax_re_search syn with
  | Some g => g
  | None => syn
  end.

(** Lines 85-86: the view has instances and the first of them is bound
    to the token. *)
Definition assigned_to (vid : Z) (token : string) (w : World) : bool :=
  match linters w !! vid with
  | Some (first :: _) => bool_decide (syntax first = token)
  | _ => false
  end.

(** [Linter.assign] (lines 60-99): the value returned, [None] or the
    set of instances, and the state afterwards. *)
Definition assign (v : View) (w : World) : option (list Linter) * World :=
  let vid := view_id v in
  let syn := view_syntax v in
  if negb (truthy_str syn) then (None, remove vid w)
  else
    let token := syntax_token (default "" syn) in
    if negb (String.eqb token "") then
      if assigned_to vid token w
      then (None, w)
      else
        match build_linters v token (map_to_list (languages w)) with
        | [] => (None, remove vid w)
        | ls => (Some ls, set_linters (<[vid := ls]> (linters w)) w)
        end
    else (None, remove vid w).


(** *** [lint_view] *)

(** The class object of an instance; a class that is not in the table
    is taken with no defaults. *)
Definition class_of (langs : gmap string LinterClass) (self : Linter)
  : LinterClass :=
  default {| attrs := klass self; defaults := None; lint_settings := None |}
          (langs !! name (klass self)).

(** [linter.settings] (lines 56-58), with the class table afterwards. *)
Definition settings_of (plugs : gmap string settings_dict)
    (langs : gmap string LinterClass) (self : Linter)
  : settings_dict * gmap string LinterClass :=
  let '(d, c) := get_settings plugs (class_of langs self) in
  (d, match langs !! name (klass self) with
      | Some _ => <[name (klass self) := c]> langs
      | None => langs
      end).

(** Lines 163-164: every entry of the instance's [errors] is stored in
    [acc] under its line plus the offset; [None + line_offset] is a
    [TypeError]. *)
Definition rekey (line_offset : Z) (errs acc : gmap (option Z) (list string))
  : res (gmap (option Z) (list string)) :=
  map_fold (λ line err r,
              d ← r;
              match line with
              | Some l => mret (<[Some (l + line_offset)%Z := err]> d)
              | None => Raise TypeError
              end)
           (Ret acc) errs.

(** The loop of lines 159-164 over the sections of one selector. The
    local [highlight] is the object installed in the instance by
    [pre_lint], so it is read back from the instance after each
    section. *)
Fixpoint lint_sections (code : string) (secs : list section)
    (hl : Highlight) (acc : gmap (option Z) (list string)) (self : Linter)
  : res (gmap (option Z) (list string)) * Linter * list invocation :=
  match secs with
  | [] => (Ret acc, self, [])
  | (line_offset, lo, hi) :: rest =>
      let hl := hl_shift line_offset lo hl in
      match pre_lint (slice code lo hi) (Some hl) self with
      | (Raise e, self, calls) => (Raise e, self, calls)
      | (Ret _, self, calls) =>
          match errors self with
          | None => (Raise AttributeError, self, calls)
          | Some errs =>
              match rekey line_offset errs acc with
              | Raise e => (Raise e, self, calls)
              | Ret acc =>
                  let '(r, self, calls') :=
                    lint_sections code rest (highlight self) acc self in
                  (r, self, calls ++ calls')
              end
          end
      end
  end.

(** The body of the loop of lines 154-166 for one instance of
    [selectors]. *)
Definition lint_selector (code : string)
    (sections : gmap string (list section)) (self : Linter)
  : res unit * Linter * list invocation :=
  match sections !! default "" (selector (klass self)) with
  | Some secs =>
      let hl := hl_new (Some code) (scope (klass self))
                  (Some (outline (klass self))) in
      match lint_sections code secs hl ∅ self with
      | (Ret errs, self, calls) => (Ret (), set_errors (Some errs) self, calls)
      | (Raise e, self, calls) => (Raise e, self, calls)
      end
  | None => (Ret (), self, [])
  end.

(** The body of the loop of lines 146-152 for one instance. *)
Definition lint_whole (fname : option string) (code : string)
    (plugs : gmap string settings_dict)
    (langs : gmap string LinterClass) (self : Linter)
  : res unit * Linter * list invocation * gmap string LinterClass :=
  let '(settings, langs) := settings_of plugs langs self in
  if truthy (default VNone (settings !! "disable")) then
    (Ret (), self, [], langs)
  else if negb (truthy_str (selector (klass self))) then
    let '(r, self, calls) := pre_lint code None (set_filename fname self) in
    (r, self, calls, langs)
  else (Ret (), self, [], langs).

(** The first loop of [lint_view] over [linters]; the instances are
    updated in place, up to the one that raises. *)
Fixpoint lint_all_whole (fname : option string) (code : string)
    (plugs : gmap string settings_dict)
    (langs : gmap string LinterClass) (ls : list Linter)
  : res unit * list Linter * list invocation * gmap string LinterClass :=
  match ls with
  | [] => (Ret (), [], [], langs)
  | l :: rest =>
      match lint_whole fname code plugs langs l with
      | (Raise e, l, calls, langs) => (Raise e, l :: rest, calls, langs)
      | (Ret _, l, calls, langs) =>
          let '(r, rest, calls', langs) :=
            lint_all_whole fname code plugs langs rest in
          (r, l :: rest, calls ++ calls', langs)
      end
  end.

(** The second loop of [lint_view], over the instances that have a
    selector ([get_selectors], lines 183-185), in place. *)
Fixpoint lint_all_selectors (code : string)
    (sections : gmap string (list section)) (ls : list Linter)
  : res unit * list Linter * list invocation :=
  match ls with
  | [] => (Ret (), [], [])
  | l :: rest =>
      if truthy_str (selector (klass l)) then
        match lint_selector code sections l with
        | (Raise e, l, calls) => (Raise e, l :: rest, calls)
        | (Ret _, l, calls) =>
            let '(r, rest, calls') :=
              lint_all_selectors code sections rest in
            (r, l :: rest, calls ++ calls')
        end
      else
        let '(r, rest, calls) := lint_all_selectors code sections rest in
        (r, l :: rest, calls)
  end.

(** [Linter.lint_view] (lines 138-169); the callback is recorded in
    [delivered]. *)
Definition lint_view (vid : Z) (fname : option string) (code : string)
    (sections : gmap string (list section)) (w : World) : res unit * World :=
  match linters w !! vid with
  | None => (Ret (), w)
  | Some ls =>
      let '(r, ls, calls, langs) :=
        lint_all_whole fname code (plugins w) (languages w) ls in
      let w1 :=
        {| languages := langs; linters := <[vid := ls]> (linters w);
           plugins := plugins w; invoked := invoked w ++ calls;
           cleared := cleared w; delivered := delivered w |} in
      match r with
      | Raise e => (Raise e, w1)
      | Ret _ =>
          let '(r, ls, calls) := lint_all_selectors code sections ls in
          let w2 :=
            {| languages := langs; linters := <[vid := ls]> (linters w);
               plugins := plugins w; invoked := invoked w1 ++ calls;
               cleared := cleared w; delivered := delivered w |} in
          match r with
          | Raise e => (Raise e, w2)
          | Ret _ =>
              match ls with
              | [] => (Raise IndexError, w2)
              | first :: _ =>
                  (Ret (),
                   {| languages := langs; linters := linters w2;
                      plugins := plugins w; invoked := invoked w2;
                      cleared := cleared w;
                      delivered := delivered w ++ [(view first, ls)] |})
              end
          end
      end
  end.

(** The instance holds a compiled pattern. *)
Definition has_compiled_pattern (self : Linter) : bool :=
  match regex self with
  | RegexCompiled _ => true
  | RegexSource _ => false
  end.

(** What binds an instance: every attribute but [errors] and
    [highlight]. *)
Definition binding (self : Linter)
  : Attrs * View * string * option string * regex_attr * Z :=
  (klass self, view self, syntax self, filename self, regex self,
   flags self).

(** *** The remaining class methods *)

(** [Linter.get_view] (lines 171-174): the view of the first instance;
    [None] when the view has no entry. *)
Definition get_view (vid : Z) (w : World) : res (option View) :=
  match linters w !! vid with
  | Some (first :: _) => Ret (Some (view first))
  | Some [] => Raise IndexError
  | None => Ret None
  end.

(** [Linter.get_linters] (lines 176-181). *)
Definition get_linters (vid : Z) (w : World) : list Linter :=
  match linters w !! vid with
  | Some ls => ls
  | None => []
  end.

(** [Linter.get_selectors] (lines 183-185). *)
Definition get_selectors (vid : Z) (w : World)
  : list (option string * Linter) :=
  (λ l, (selector (klass l), l))
    <$> filter (λ l, truthy_str (selector (klass l)) = true)
          (get_linters vid w).

(** The first loop of [Linter.reload] (lines 114-119) over the table:
    under every name, the class gets as [lint_settings] a copy of its
    defaults updated with the plugin settings of that name. *)
Definition reload_languages (plugs : gmap string settings_dict)
    (langs : gmap string LinterClass) : gmap string LinterClass :=
  map_imap (λ nm c,
              Some (set_lint_settings
                      (Some (default ∅ (plugs !! nm) ∪ default ∅ (defaults c)))
                      c))
           langs.

End Model.



(** ** A concrete host, for evaluating the model *)

Module Fixture.

(** What a highlight was asked to mark. *)
Inductive mark :=
| MarkRange (row col : Z)
| MarkNear (row : Z) (near : string)
| MarkLine (row : option Z).

(** A highlight that records its text, its offsets and its marks. *)
Record Marks := {
  m_code : option string;
  m_scope : string;
  m_outline : option bool;
  m_line_offset : Z;
  m_char_offset : Z;
  m_marks : list mark;
}.

Definition add_mark (k : mark) (h : Marks) : Marks :=
  {| m_code := m_code h; m_scope := m_scope h; m_outline := m_outline h;
     m_line_offset := m_line_offset h; m_char_offset := m_char_offset h;
     m_marks := m_marks h ++ [k] |}.

(** Offsets of the first character of every line of a text. *)
Fixpoint line_starts (i : Z) (l : list ascii) : list Z :=
  match l with
  | [] => []
  | c :: rest =>
      if Ascii.eqb c "010" then (i + 1)%Z :: line_starts (i + 1)%Z rest
      else line_starts (i + 1)%Z rest
  end.

Definition full_line (row : Z) (h : Marks) : Z * Z :=
  let code := default "" (m_code h) in
  let starts :=
    0%Z :: line_starts 0 (list_ascii_of_string code)
      ++ [Z.of_nat (String.length code)] in
  (default 0%Z (starts !! Z.to_nat row),
   default 0%Z (starts !! S (Z.to_nat row))).

Fixpoint span_digits (l : list ascii) : list ascii * list ascii :=
  match l with
  | c :: rest =>
      match digit_val c with
      | Some _ => let '(d, r) := span_digits rest in (c :: d, r)
      | None => ([], l)
      end
  | [] => ([], [])
  end.

(** The pattern [colon_source] below on one line: digits, a colon,
    digits, a colon and a space, then a message that is not empty. *)
Definition colon_match (line : string) : option Match :=
  match span_digits (list_ascii_of_string line) with
  | ((_ :: _) as row, ":"%char :: rest) =>
      match span_digits rest with
      | ((_ :: _) as col, ":"%char :: " "%char :: ((_ :: _) as msg)) =>
          Some {| groupdict :=
                    {[ "line" := Some (string_of_list_ascii row);
                       "col" := Some (string_of_list_ascii col);
                       "error" := Some (string_of_list_ascii msg) ]} |}
      | _ => None
      end
  | _ => None
  end.

Definition colon_pattern : Pattern := {|
  finditer := λ text, omap colon_match (splitlines text);
  pmatch := colon_match;
|}.

Definition colon_source : string :=
  "^(?P<line>\d+):(?P<col>\d+): (?P<error>.+)$".

(** The checker [cat] prints the text it is given. *)
#[export] Instance host : Collaborators := {|
  Highlight := Marks;
  hl_new := λ code sc out,
    {| m_code := code; m_scope := sc; m_outline := out;
       m_line_offset := 0; m_char_offset := 0; m_marks := [] |};
  hl_shift := λ line char h,
    {| m_code := m_code h; m_scope := m_scope h; m_outline := m_outline h;
       m_line_offset := line; m_char_offset := char;
       m_marks := m_marks h |};
  hl_full_line := full_line;
  hl_range := λ row col, add_mark (MarkRange row col);
  hl_near := λ row near, add_mark (MarkNear row near);
  hl_line := λ row, add_mark (MarkLine row);
  re_compile := λ src fl,
    if String.eqb src colon_source then Some colon_pattern else None;
  communicate := λ cmd code, code;
|}.

(** A checker class with the colon pattern, per line. *)
Definition Colon : Attrs := {|
  name := "Colon"; language := LangStr "python"; cmd := ["cat"];
  regex_src := colon_source; multiline := false; cls_flags := 0;
  tab_size := 1; scope := "keyword"; selector := None; outline := true;
  needs_api := false |}.

(** The same checker, run on the whole output at once. *)
Definition ColonMulti : Attrs := {|
  name := "ColonMulti"; language := LangStr "python"; cmd := ["cat"];
  regex_src := colon_source; multiline := true; cls_flags := 0;
  tab_size := 1; scope := "keyword"; selector := None; outline := true;
  needs_api := false |}.

(** The same checker, bound to the sections of [selectorA]. *)
Definition ColonEmbedded : Attrs := {|
  name := "ColonEmbedded"; language := LangStr "html"; cmd := ["cat"];
  regex_src := colon_source; multiline := false; cls_flags := 0;
  tab_size := 1; scope := "keyword"; selector := Some "selectorA";
  outline := true; needs_api := false |}.

Definition python_view : View := {|
  view_id := 7;
  view_syntax := Some "Packages/Python/Python.tmLanguage";
  view_file_name := Some "a.py" |}.


Definition class_ (a : Attrs) : LinterClass :=
  {| attrs := a; defaults := None; lint_settings := None |}.

Definition world0 : World := {|
  languages := {[ "Colon" := class_ Colon;
                  "ColonEmbedded" := class_ ColonEmbedded ]};
  linters := ∅; plugins := ∅; invoked := []; cleared := [];
  delivered := [] |}.

(** The instance [assign] builds for [python_view]. *)
Definition colon_linter : Linter :=
  init Colon python_view "Python" (Some "a.py").



(** The colon checker with a tab size of 4. *)
Definition ColonTabs : Attrs := {|
  name := "ColonTabs"; language := LangStr "python"; cmd := ["cat"];
  regex_src := colon_source; multiline := false; cls_flags := 0;
  tab_size := 4; scope := "keyword"; selector := None; outline := true;
  needs_api := false |}.

Definition tabs_linter : Linter :=
  init ColonTabs python_view "Python" (Some "a.py").

(** A checker that declares its language with a capital. *)
Definition Capitalized : Attrs := {|
  name := "Capitalized"; language := LangStr "Python"; cmd := ["cat"];
  regex_src := colon_source; multiline := false; cls_flags := 0;
  tab_size := 1; scope := "keyword"; selector := None; outline := true;
  needs_api := false |}.

(** The view 7 once its syntax setting is gone. *)
Definition plain_view : View := {|
  view_id := 7; view_syntax := None; view_file_name := Some "a.py" |}.

(** [world0] once [python_view] has its instance. *)
Definition world_python : World := (assign python_view world0).2.

(** The match of the line [3:5: bad indent]. *)
Definition match_3_5 : Match :=
  {| groupdict := {[ "line" := Some "3"; "col" := Some "5";
                     "error" := Some "bad indent" ]} |}.

(** A checker whose pattern does not compile. *)
Definition Broken : Attrs := {|
  name := "Broken"; language := LangStr "python"; cmd := ["cat"];
  regex_src := "("; multiline := false; cls_flags := 0;
  tab_size := 1; scope := "keyword"; selector := None; outline := true;
  needs_api := false |}.

Definition broken_linter : Linter :=
  init Broken python_view "Python" (Some "a.py").

(** The view 7 once its syntax is set to HTML. *)
Definition retyped_view : View := {|
  view_id := 7;
  view_syntax := Some "Packages/HTML/HTML.tmLanguage";
  view_file_name := Some "a.py" |}.

(** [world0] with the plugin setting [disable] for [Colon], once
    [python_view] has its instance. *)
Definition world_disabled : World := {|
  languages := {[ "Colon" := class_ Colon ]};
  linters := {[ 7%Z := [colon_linter] ]};
  plugins := {[ "Colon" := {[ "disable" := VBool true ]} ]};
  invoked := []; cleared := []; delivered := [] |}.

(** Two parse results on row 2 around one on row 6. *)
Definition three_results : list parsed :=
  [ (Some {| groupdict := ∅ |}, Some 2%Z, ColNone, Some "first", None);
    (Some {| groupdict := ∅ |}, Some 6%Z, ColNone, Some "other", None);
    (Some {| groupdict := ∅ |}, Some 2%Z, ColNone, None, None) ].

(** The output of the specification's per-line example. *)
Definition three_lines : string :=
  "3:5: bad indent
not a match
7:1: unused var".


End Fixture.

(** ** Values the properties are stated with *)

(** The line of the specification's example: a tab, then [foo = 1]. *)
Definition tab_foo : string := String "009" "foo = 1".

(** The messages, in order, of the parse results that carry a match on
    row [r]. *)
Fixpoint messages_at (r : Z) (ps : list parsed) : list string :=
  match ps with
  | [] => []
  | (Some _, Some r', _, msg, _) :: rest =>
      if bool_decide (r' = r) then str_of msg :: messages_at r rest
      else messages_at r rest
  | _ :: rest => messages_at r rest
  end.

(** A parse result as [split_match] builds them: a row exactly when
    there is a match. *)
Definition well_formed (p : parsed) : Prop :=
  let '(m, row, _, _, _) := p in is_Some row ↔ is_Some m.

(** * Properties *)

Example splitlines_ex :
  splitlines "3:5: bad indent
not a match
7:1: unused var" = ["3:5: bad indent"; "not a match"; "7:1: unused var"].
Proof. reflexivity. Qed.

Example int_ex : int_of_str " 12 " = Ret 12%Z ∧ int_of_str "-3" = Ret (-3)%Z
  ∧ int_of_str "" = Raise ValueError ∧ int_of_str "1x" = Raise ValueError.
Proof. repeat split; reflexivity. Qed.

Example split_ex :
  split_match (Some {| groupdict := {[ "line" := Some "3"; "col" := Some "5"; "error" := Some "bad" ]} |})
  = Ret (Some {| groupdict := {[ "line" := Some "3"; "col" := Some "5"; "error" := Some "bad" ]} |},
         Some 2%Z, ColInt 4, Some "bad", None).
Proof. vm_compute. reflexivity. Qed.

Example syntax_re_ex :
  syntax_re_search "Packages/Python/Python.tmLanguage" = Some "Python"
  ∧ syntax_re_search "Python" = None
  ∧ syntax_re_search "/.tmLanguage" = None
  ∧ syntax_re_search "a/b.tmLanguage/c.tmLanguage" = Some "c".
Proof. repeat split; vm_compute; reflexivity. Qed.

(** ** The output parser *)

(** In multiline mode the generator yields one result per match of
    [finditer], whatever their number. *)
Lemma find_errors_multiline (p : Pattern) (output : string) :
  find_errors true (RegexCompiled p) output
  = (λ m, split_match (Some m)) <$> finditer p output.
Proof. reflexivity. Qed.

(** C1 (the code departs from the claim): in multiline mode, on the
    non-empty output [ok] in which the pattern has no match, [find_errors]
    yields no result at all, where the claim has it yield the single
    placeholder [split_match None]; the [else] branch of line 275 is never
    taken because the iterator tested on line 272 is true. *)
Theorem find_errors_multiline_no_match_yields_nothing :
  finditer Fixture.colon_pattern "ok" = []
  ∧ find_errors true (RegexCompiled Fixture.colon_pattern) "ok" = []
  ∧ split_match None = Ret (None, None, ColNone, Some "", None).
Proof. repeat split; reflexivity. Qed.

(** A match that captured a decimal [line], and possibly a [col]. *)
Lemma split_match_captured (gd : gmap string (option string))
    (l : string) (n : Z) :
  gd !! "line" = Some (Some l) → int_of_str l = Ret n →
  gd !! "col" = None ∨ gd !! "col" = Some None →
  split_match (Some {| groupdict := gd |})
  = Ret (Some {| groupdict := gd |}, Some (n - 1)%Z, ColNone,
         default (Some "") (gd !! "error"), default None (gd !! "near")).
Proof.
  intros Hl Hn Hc. unfold split_match, getitem. cbn [groupdict].
  assert (Herr : (gd ∪ split_defaults) !! "error"
                 = Some (default (Some "") (gd !! "error"))).
  { rewrite lookup_union. destruct (gd !! "error"); reflexivity. }
  assert (Hnear : (gd ∪ split_defaults) !! "near"
                  = Some (default None (gd !! "near"))).
  { rewrite lookup_union. destruct (gd !! "near"); reflexivity. }
  assert (Hline : (gd ∪ split_defaults) !! "line" = Some (Some l)).
  { rewrite lookup_union, Hl. reflexivity. }
  assert (Hcol : (gd ∪ split_defaults) !! "col" = Some None).
  { rewrite lookup_union. destruct Hc as [-> | ->]; reflexivity. }
  rewrite Herr, Hline, Hcol, Hnear. cbn. rewrite Hn. reflexivity.
Qed.

(** A match that captured a decimal [line] and a decimal [col]. *)
Lemma split_match_captured_col (gd : gmap string (option string))
    (l c : string) (n k : Z) :
  gd !! "line" = Some (Some l) → int_of_str l = Ret n →
  gd !! "col" = Some (Some c) → c ≠ "" → int_of_str c = Ret k →
  split_match (Some {| groupdict := gd |})
  = Ret (Some {| groupdict := gd |}, Some (n - 1)%Z, ColInt (k - 1),
         default (Some "") (gd !! "error"), default None (gd !! "near")).
Proof.
  intros Hl Hn Hc Hne Hk. unfold split_match, getitem. cbn [groupdict].
  assert (Herr : (gd ∪ split_defaults) !! "error"
                 = Some (default (Some "") (gd !! "error"))).
  { rewrite lookup_union. destruct (gd !! "error"); reflexivity. }
  assert (Hnear : (gd ∪ split_defaults) !! "near"
                  = Some (default None (gd !! "near"))).
  { rewrite lookup_union. destruct (gd !! "near"); reflexivity. }
  assert (Hline : (gd ∪ split_defaults) !! "line" = Some (Some l)).
  { rewrite lookup_union, Hl. reflexivity. }
  assert (Hcol : (gd ∪ split_defaults) !! "col" = Some (Some c)).
  { rewrite lookup_union, Hc. reflexivity. }
  rewrite Herr, Hline, Hcol, Hnear. cbn. rewrite Hn. cbn.
  apply String.eqb_neq in Hne. rewrite Hne. cbn. rewrite Hk. reflexivity.
Qed.

(** C4 (the code departs from the claim): a match without a row is not
    turned into a result with an absent row. When the pattern names its
    group [row], the key of the defaults, the lookup of [line] on line 285
    raises [KeyError]; when the group [line] exists and took no part in
    the match, [int(None)] on line 287 raises [TypeError]. *)
Theorem split_match_missing_row_raises :
  split_match (Some {| groupdict := {[ "row" := Some "3"; "col" := Some "5";
                                       "error" := Some "bad" ]} |})
  = Raise (KeyError "line")
  ∧ split_match (Some {| groupdict := {[ "line" := None;
                                         "error" := Some "bad" ]} |})
    = Raise TypeError.
Proof. split; vm_compute; reflexivity. Qed.

(** ** Settings *)

(** When the class has defaults, [get_settings] stores the merged
    dictionary back into them. *)
Lemma get_settings_defaults (plugins : gmap string settings_dict)
    (c : LinterClass) (d : settings_dict) :
  defaults c = Some d → d ≠ ∅ →
  defaults (get_settings plugins c).2
  = Some (default ∅ (plugins !! name (attrs c)) ∪ d).
Proof.
  intros Hd Hne. unfold get_settings. rewrite Hd.
  rewrite bool_decide_eq_false_2 by done. reflexivity.
Qed.

(** [reload] copies the defaults before updating them. *)
Lemma reload_settings_defaults (plugins : gmap string settings_dict)
    (c : LinterClass) :
  defaults (reload_settings plugins c) = defaults c.
Proof. reflexivity. Qed.

(** C8 (the code departs from the claim): for a class whose defaults are
    [{'a': 1}] and plugin settings [{'a': 2}] under its name,
    [get_settings] leaves the class with the defaults [{'a': 2}]. *)
Theorem get_settings_overwrites_defaults :
  let c := {| attrs := Fixture.Colon; defaults := Some {[ "a" := VInt 1 ]};
              lint_settings := None |} in
  let plugins : gmap string settings_dict :=
    {[ "Colon" := {[ "a" := VInt 2 ]} ]} in
  defaults (get_settings plugins c).2 = Some {[ "a" := VInt 2 ]}
  ∧ defaults (get_settings plugins c).2 ≠ defaults c.
Proof.
  cbv zeta. split.
  - vm_compute. reflexivity.
  - vm_compute. intros Heq. discriminate Heq.
Qed.

(** ** Exceptions of the parser *)

Lemma unsigned_val_raise (l : list ascii) (e : exn) :
  unsigned_val l = Raise e → e = ValueError.
Proof.
  unfold unsigned_val. destruct l; [congruence|].
  destruct (digits_val _ _); congruence.
Qed.

Lemma int_of_str_raise (s : string) (e : exn) :
  int_of_str s = Raise e → e = ValueError.
Proof.
  unfold int_of_str. intros Hr.
  repeat case_match; subst;
    try (by eapply unsigned_val_raise);
    try (unfold mbind, res_bind in Hr;
         match type of Hr with
         | match ?u with _ => _ end = _ =>
             destruct u eqn:Hu; [discriminate Hr|];
             inversion Hr; subst; by eapply unsigned_val_raise
         end).
Qed.

Lemma int_of_raise (x : option string) (e : exn) :
  int_of x = Raise e → e = ValueError ∨ e = TypeError.
Proof.
  destruct x as [s|]; cbn.
  - intros Hr. left. by eapply int_of_str_raise.
  - intros Hr. right. congruence.
Qed.

Lemma getitem_raise {V} (d : gmap string V) (k : string) (e : exn) :
  getitem d k = Raise e → e = KeyError k.
Proof. unfold getitem. destruct (d !! k); congruence. Qed.

(** [split_match] raises nothing but [KeyError], [TypeError] and
    [ValueError]. *)
Lemma split_match_raise (m : option Match) (e : exn) :
  split_match m = Raise e →
  (∃ k, e = KeyError k) ∨ e = TypeError ∨ e = ValueError.
Proof.
  destruct m as [mt|]; [|discriminate].
  unfold split_match.
  set (items := groupdict mt ∪ split_defaults).
  destruct (getitem items "error") as [err|e1] eqn:H1; cbn;
    [|intros [= <-]; left; eexists; by eapply getitem_raise].
  destruct (getitem items "line") as [row|e2] eqn:H2; cbn;
    [|intros [= <-]; left; eexists; by eapply getitem_raise].
  destruct (getitem items "col") as [col|e3] eqn:H3; cbn;
    [|intros [= <-]; left; eexists; by eapply getitem_raise].
  destruct (getitem items "near") as [near|e4] eqn:H4; cbn;
    [|intros [= <-]; left; eexists; by eapply getitem_raise].
  destruct (int_of row) as [r|e5] eqn:H5; cbn;
    [|intros [= <-]; right; apply int_of_raise in H5; tauto].
  destruct (truthy_str col); cbn; [|discriminate].
  destruct (int_of col) as [c|e6] eqn:H6; cbn; [discriminate|].
  intros [= <-]. right. apply int_of_raise in H6. tauto.
Qed.

(** A result of [split_match] has a row exactly when it has a match. *)
Lemma split_match_row (m m' : option Match) (row : option Z) (col : column)
    (msg near : option string) :
  split_match m = Ret (m', row, col, msg, near) →
  m' = m ∧ (is_Some row ↔ is_Some m)
  ∧ (m = None → col = ColNone ∧ msg = Some "" ∧ near = None).
Proof.
  destruct m as [mt|].
  - unfold split_match.
    set (items := groupdict mt ∪ split_defaults).
    destruct (getitem items "error"); cbn; [|intros ?; discriminate].
    destruct (getitem items "line") as [r|]; cbn; [|intros ?; discriminate].
    destruct (getitem items "col") as [c|]; cbn; [|intros ?; discriminate].
    destruct (getitem items "near"); cbn; [|intros ?; discriminate].
    destruct (int_of r); cbn; [|intros ?; discriminate].
    destruct (truthy_str c); cbn.
    + destruct (int_of c); cbn; [|intros ?; discriminate].
      intros [= <- <- <- <- <-]. split; [done|]. split; [|done].
      split; eauto.
    + intros [= <- <- <- <- <-]. split; [done|]. split; [|done].
      split; eauto.
  - cbn. intros [= <- <- <- <- <-]. split; [done|]. split; [|done].
    split; intros [? ?]; discriminate.
Qed.

(** Every result the generator yields is a result of [split_match]. *)
Lemma find_errors_items (ml : bool) (rx : regex_attr) (output : string)
    (r : res parsed) :
  r ∈ find_errors ml rx output →
  r = Raise AttributeError ∨ ∃ m, r = split_match m.
Proof.
  unfold find_errors. destruct ml.
  - destruct rx as [src|p].
    + intros Hin. apply list_elem_of_singleton in Hin. by left.
    + intros Hin. apply list_elem_of_fmap in Hin as (m & -> & _).
      right. by exists (Some m).
  - intros Hin. apply list_elem_of_fmap in Hin as (line & -> & _).
    destruct rx as [src|p]; [by left|right].
    by exists (pmatch p (strip line)).
Qed.

(** ** One instance: [error], [lint], [pre_lint] *)

Section Instance.
Context `{Collaborators}.

Lemma error_raise (line : option Z) (err : option string)
    (self self' : Linter) (e : exn) :
  error line err self = (Raise e, self') → e = TypeError.
Proof.
  unfold error. cbn. destruct (errors self); intros [= <- _]; done.
Qed.

Lemma adjust_col_cases (self : Linter) (code : string) (r c : Z) :
  adjust_col self code r c
  = if (1 <? tab_size (klass self))%Z then Raise NameError else Ret c.
Proof.
  unfold adjust_col. destruct (1 <? _)%Z; [|done].
  by destruct (hl_full_line r (highlight self)).
Qed.

(** The highlight of a match raises nothing but the [NameError] of line
    225, and otherwise changes the highlight only. *)
Lemma mark_position_cases (code : string) (row : option Z) (col : column)
    (near : option string) (self : Linter) :
  (mark_position code row col near self = Raise NameError
   ∧ (1 < tab_size (klass self))%Z ∧ is_Some row ∧ ∃ c, col = ColInt c)
  ∨ ∃ h, mark_position code row col near self = Ret (set_highlight h self).
Proof.
  assert (Hself : self = set_highlight (highlight self) self)
    by (by destruct self).
  unfold mark_position. destruct row as [r|].
  2:{ right. exists (highlight self). by rewrite <- Hself. }
  replace (negb (r =? 0)%Z || (r =? 0)%Z) with true
    by (by destruct (r =? 0)%Z).
  destruct col as [| |c].
  - right. destruct near as [n|]; [destruct (negb _)|];
      eexists; reflexivity.
  - right. destruct near as [n|]; [destruct (negb _)|];
      eexists; reflexivity.
  - rewrite adjust_col_cases.
    destruct (Z.ltb_spec 1 (tab_size (klass self))).
    + left. split; [done|]. split; [lia|]. split; eauto.
    + right. eexists. reflexivity.
Qed.

Lemma lint_step_raise (code : string) (p : parsed) (self self' : Linter)
    (e : exn) :
  lint_step code p self = (Raise e, self') →
  e = TypeError ∨ e = NameError.
Proof.
  destruct p as [[[[m row] col] msg] near]. unfold lint_step.
  destruct m; [|intros [= <- _]; done].
  destruct (mark_position_cases code row col near self)
    as [(-> & _)|[h ->]].
  - intros [= <- _]. by right.
  - intros He. left. by eapply error_raise.
Qed.

(** The loop raises what the generator raises, the [TypeError] of
    [error] or the [NameError] of line 225. *)
Lemma lint_loop_raise (code : string) (items : list (res parsed)) :
  ∀ (self self' : Linter) (e : exn),
    lint_loop code items self = (Raise e, self') →
    Raise e ∈ items ∨ e = TypeError ∨ e = NameError.
Proof.
  induction items as [|r items IH]; intros self self' e; cbn.
  - intros [= <- _].
  - destruct r as [p|e0].
    + destruct (lint_step code p self) as [[u|e1] s1] eqn:Hs.
      * intros Hl. apply IH in Hl as [Hin|Hl]; [left|by right].
        by apply list_elem_of_further.
      * intros [= <- _]. right. by eapply lint_step_raise.
    + intros [= <- _]. left. apply list_elem_of_here.
Qed.

Lemma complete_false (self : Linter) :
  complete self = false
  ↔ language_truth (language (klass self)) = false
    ∨ cmd (klass self) = []
    ∨ regex_truth (regex self) = false.
Proof.
  unfold complete.
  destruct (language_truth _), (cmd (klass self)), (regex_truth _);
    cbn; split; intros Hx; try done; try tauto;
    destruct Hx as [Hx|[Hx|Hx]]; done.
Qed.

Lemma lint_incomplete (code : string) (self : Linter) :
  complete self = false →
  lint code self = (Raise NotImplementedError, self, []).
Proof. intros Hc. unfold lint. by rewrite Hc. Qed.

Lemma lint_complete (code : string) (self : Linter) :
  complete self = true →
  (lint code self).1.1 ≠ Raise NotImplementedError.
Proof.
  intros Hc. unfold lint. rewrite Hc. cbn.
  destruct (String.eqb _ ""); cbn; [done|].
  destruct (lint_loop _ _ _) as [r s] eqn:Hl. cbn.
  destruct r as [u|e]; [done|].
  apply lint_loop_raise in Hl as [Hin|[-> | ->]]; [|done..].
  apply find_errors_items in Hin as [[= ->]|[m Hm]]; [done|].
  symmetry in Hm. apply split_match_raise in Hm as [[k ->]|[-> | ->]]; done.
Qed.

Lemma pre_lint_incomplete (code : string) (hl : option Highlight)
    (self : Linter) :
  code ≠ "" → complete self = false →
  (pre_lint code hl self).1.1 = Raise NotImplementedError
  ∧ (pre_lint code hl self).2 = [].
Proof.
  intros Hne Hc. unfold pre_lint. set (s1 := set_highlight _ _).
  apply String.eqb_neq in Hne. rewrite Hne.
  replace (if needs_api (klass s1) then lint code s1 else lint code s1)
    with (lint code s1) by (by destruct (needs_api _)).
  by rewrite lint_incomplete.
Qed.

(** C6, as amended: [lint] raises [NotImplementedError] exactly when the
    language, the command or the [regex] attribute is empty, a pattern
    text that did not compile counting as present; it then has called no
    checker and changed nothing; and [pre_lint], its caller, lets the
    exception through whenever it reaches [lint], that is on a text
    that is not empty, again with no call of the checker. *)
Theorem lint_raises_not_implemented_iff_incomplete (code : string)
    (hl : option Highlight) (self : Linter) :
  ((lint code self).1.1 = Raise NotImplementedError
   ↔ language_truth (language (klass self)) = false
     ∨ cmd (klass self) = []
     ∨ regex_truth (regex self) = false)
  ∧ ((lint code self).1.1 = Raise NotImplementedError
     ↔ lint code self = (Raise NotImplementedError, self, []))
  ∧ ((pre_lint code hl self).1.1 = Raise NotImplementedError
     ↔ code ≠ ""
       ∧ (language_truth (language (klass self)) = false
          ∨ cmd (klass self) = []
          ∨ regex_truth (regex self) = false))
  ∧ ((pre_lint code hl self).1.1 = Raise NotImplementedError
     ↔ pre_lint code hl self
       = (Raise NotImplementedError,
          set_highlight
            (match hl with
             | Some h => h
             | None => hl_new (Some code) (scope (klass self))
                         (Some (outline (klass self)))
             end) (set_errors (Some ∅) self),
          [])).
Proof.
  assert (Hlint : ∀ s : Linter,
             (lint code s).1.1 = Raise NotImplementedError
             ↔ complete s = false).
  { intros s. split.
    - intros Hr. destruct (complete s) eqn:Hc; [|done].
      by apply lint_complete in Hr.
    - intros Hc. by rewrite lint_incomplete. }
  assert (Hpre : (pre_lint code hl self).1.1 = Raise NotImplementedError
                 ↔ code ≠ "" ∧ complete self = false).
  { unfold pre_lint. set (s1 := set_highlight _ _).
    assert (Hs1 : complete s1 = complete self) by done.
    destruct (String.eqb_spec code "") as [-> |Hne].
    - cbn. split; [done|]. intros [? _]. done.
    - replace (if needs_api (klass s1) then lint code s1 else lint code s1)
        with (lint code s1) by (by destruct (needs_api _)).
      rewrite Hlint, Hs1. tauto. }
  split; [|split; [|split]].
  - rewrite Hlint. apply complete_false.
  - split.
    + intros Hr. apply Hlint in Hr. by apply lint_incomplete.
    + intros ->. done.
  - rewrite <- complete_false. exact Hpre.
  - split.
    + intros Hr. apply Hpre in Hr as [Hne Hc].
      unfold pre_lint. set (s1 := set_highlight _ _).
      apply String.eqb_neq in Hne. rewrite Hne.
      replace (if needs_api (klass s1) then lint code s1 else lint code s1)
        with (lint code s1) by (by destruct (needs_api _)).
      by rewrite lint_incomplete.
    + intros ->. done.
Qed.

(** C9: on the empty text [pre_lint] returns normally with [errors]
    reset to the empty dictionary and the highlight replaced (by the one
    it was given or, without one, by a new [Highlight] of the empty
    text), the other attributes as they were, and no call of the
    checker; this for every instance, complete or not. *)
Theorem pre_lint_empty_text (hl : option Highlight) (self : Linter) :
  let '(r, self', calls) := pre_lint "" hl self in
  r = Ret ()
  ∧ errors self' = Some ∅
  ∧ highlight self'
    = match hl with
      | Some h => h
      | None => hl_new (Some "") (scope (klass self))
                  (Some (outline (klass self)))
      end
  ∧ calls = []
  ∧ (klass self', view self', syntax self', filename self', regex self',
     flags self')
    = (klass self, view self, syntax self, filename self, regex self,
       flags self).
Proof. cbn. done. Qed.

(** For a match that has no row, the loop body goes on to [error] with
    the row [None] (line 239 is outside the test of line 218). *)
Lemma lint_step_match_without_row (code : string) (mt : Match)
    (col : column) (msg near : option string) (self : Linter) :
  lint_step code (Some mt, None, col, msg, near) self = error None msg self.
Proof. reflexivity. Qed.

(** What the parser itself yields without a row is the placeholder of
    a non-match, which the loop body leaves alone. *)
Lemma lint_step_yielded_without_row (code output : string)
    (self : Linter) (m : option Match) (col : column)
    (msg near : option string) :
  Ret (m, None, col, msg, near)
    ∈ find_errors (multiline (klass self)) (regex self) output →
  lint_step code (m, None, col, msg, near) self = (Ret (), self).
Proof.
  intros Hin. apply find_errors_items in Hin as [Hr|[m0 Hm]]; [done|].
  symmetry in Hm. apply split_match_row in Hm as (-> & Hrow & _).
  destruct m0 as [mt|]; [|reflexivity].
  destruct Hrow as [_ Hrow]. destruct Hrow as [? ?]; [eauto|done].
Qed.

(** C5, as amended: for a parse result whose row is absent, the loop body
    records nothing when the result carries no match; when it carries a
    match it asks for no range, near or row highlight, yet line 239 still
    calls [error(None, message)]: [highlight.line(None)] is called and
    the message is appended to [errors] under the key [None]. *)
Theorem lint_step_absent_row (code : string) (m : option Match)
    (col : column) (msg near : option string) (self : Linter)
    (d : gmap (option Z) (list string)) :
  errors self = Some d →
  lint_step code (m, None, col, msg, near) self
  = match m with
    | None => (Ret (), self)
    | Some _ =>
        (Ret (),
         set_errors
           (Some (<[None := default [] (d !! None) ++ [str_of msg]]> d))
           (set_highlight (hl_line None (highlight self)) self))
    end.
Proof.
  intros Hd. destruct m as [mt|]; [|reflexivity].
  unfold lint_step. cbn [mark_position]. unfold error. cbn.
  rewrite Hd. by destruct (d !! None).
Qed.

(** With a tab size above 1, a match that has a row and an integer
    column stops the loop body at line 225. *)
Lemma lint_step_name_error (code : string) (mt : Match) (r c : Z)
    (msg near : option string) (self : Linter) :
  (1 < tab_size (klass self))%Z →
  lint_step code (Some mt, Some r, ColInt c, msg, near) self
  = (Raise NameError, self).
Proof.
  intros Hts. unfold lint_step, mark_position.
  replace (negb (r =? 0)%Z || (r =? 0)%Z) with true
    by (by destruct (r =? 0)%Z).
  rewrite adjust_col_cases.
  destruct (Z.ltb_spec 1 (tab_size (klass self))); [done|lia].
Qed.

End Instance.

(** ** The registry of instances: [remove], [assign] *)

Section Registry.
Context `{Collaborators}.

Lemma remove_lookup (vid : Z) (w : World) :
  linters (remove vid w) !! vid = None.
Proof.
  unfold remove. destruct (linters w !! vid) eqn:Hl; cbn; [|done].
  apply lookup_delete_eq.
Qed.

Lemma remove_absent (vid : Z) (w : World) :
  linters w !! vid = None → remove vid w = w.
Proof. intros Hl. unfold remove. by rewrite Hl. Qed.

Lemma remove_languages (vid : Z) (w : World) :
  languages (remove vid w) = languages w.
Proof. unfold remove. by destruct (linters w !! vid). Qed.

(** Detaching twice is detaching once. *)
Lemma remove_idempotent (vid : Z) (w : World) :
  remove vid (remove vid w) = remove vid w.
Proof. apply remove_absent, remove_lookup. Qed.

(** Every instance built for a token is bound to that token. *)
Lemma build_linters_syntax (v : View) (token : string)
    (classes : list (string * LinterClass)) :
  Forall (λ l, syntax l = token) (build_linters v token classes).
Proof.
  unfold build_linters.
  assert (Hgen : ∀ acc, Forall (λ l, syntax l = token) acc →
            Forall (λ l, syntax l = token)
              (foldl (λ acc entry,
                 if bool_decide (can_lint (attrs entry.2) token = Some true)
                 then acc ++ [init (attrs entry.2) v token (view_file_name v)]
                 else acc) acc classes)).
  { induction classes as [|c classes IH]; intros acc Hacc; [done|].
    cbn [foldl]. apply IH. case_bool_decide; [|done].
    apply Forall_app. split; [done|]. by apply Forall_singleton. }
  by apply Hgen.
Qed.

Lemma assign_removes (v : View) (w : World) :
  truthy_str (view_syntax v) = false
  ∨ syntax_token (default "" (view_syntax v)) = ""
  ∨ (assigned_to (view_id v)
       (syntax_token (default "" (view_syntax v))) w = false
     ∧ build_linters v (syntax_token (default "" (view_syntax v)))
         (map_to_list (languages w)) = []) →
  assign v w = (None, remove (view_id v) w).
Proof.
  unfold assign. intros [Hs|[Ht|[Ha Hb]]].
  - by rewrite Hs.
  - destruct (truthy_str _); [|done]. by rewrite Ht.
  - destruct (truthy_str _); [|done]. cbn [negb].
    destruct (String.eqb _ ""); [done|]. cbn [negb]. by rewrite Ha, Hb.
Qed.

Lemma assign_keeps (v : View) (w : World) :
  truthy_str (view_syntax v) = true →
  syntax_token (default "" (view_syntax v)) ≠ "" →
  assigned_to (view_id v) (syntax_token (default "" (view_syntax v))) w
  = true →
  assign v w = (None, w).
Proof.
  intros Hs Ht Ha. unfold assign. rewrite Hs. cbn [negb].
  apply String.eqb_neq in Ht. rewrite Ht. cbn [negb]. by rewrite Ha.
Qed.

Lemma assign_builds (v : View) (w : World) (x : Linter) (ls : list Linter) :
  truthy_str (view_syntax v) = true →
  syntax_token (default "" (view_syntax v)) ≠ "" →
  assigned_to (view_id v) (syntax_token (default "" (view_syntax v))) w
  = false →
  build_linters v (syntax_token (default "" (view_syntax v)))
    (map_to_list (languages w)) = x :: ls →
  assign v w
  = (Some (x :: ls), set_linters (<[view_id v := x :: ls]> (linters w)) w).
Proof.
  intros Hs Ht Ha Hb. unfold assign. rewrite Hs. cbn [negb].
  apply String.eqb_neq in Ht. rewrite Ht. cbn [negb]. by rewrite Ha, Hb.
Qed.

(** C2, as amended: a second [assign] of the same view, with nothing in
    between, changes nothing (the set stored for the view is the one the
    first call returned, and no instance is built) and returns [None]. *)
Theorem assign_again_is_noop_returning_none (v : View) (w : World) :
  assign v (assign v w).2 = (None, (assign v w).2)
  ∧ match (assign v w).1 with
    | Some ls => linters (assign v w).2 !! view_id v = Some ls
    | None => True
    end.
Proof.
  set (token := syntax_token (default "" (view_syntax v))).
  assert (Hgone : assign v (remove (view_id v) w)
                  = (None, remove (view_id v) (remove (view_id v) w)) →
                  assign v (remove (view_id v) w)
                  = (None, remove (view_id v) w)).
  { intros ->. by rewrite remove_idempotent. }
  destruct (truthy_str (view_syntax v)) eqn:Hs.
  2:{ rewrite (assign_removes v w) by auto. cbn [fst snd]. split; [|done].
      apply Hgone, assign_removes. auto. }
  destruct (decide (token = "")) as [Ht|Ht].
  { rewrite (assign_removes v w) by auto. cbn [fst snd]. split; [|done].
    apply Hgone, assign_removes. auto. }
  destruct (assigned_to (view_id v) token w) eqn:Ha.
  { rewrite (assign_keeps v w) by done. cbn [fst snd]. split; [|done].
    by apply assign_keeps. }
  destruct (build_linters v token (map_to_list (languages w)))
    as [|x ls] eqn:Hb.
  { rewrite (assign_removes v w) by auto. cbn [fst snd]. split; [|done].
    apply Hgone, assign_removes. right. right. split.
    - unfold assigned_to. by rewrite remove_lookup.
    - by rewrite remove_languages. }
  rewrite (assign_builds v w x ls) by done. cbn [fst snd].
  split; [|apply lookup_insert_eq].
  apply assign_keeps; [done..|].
  unfold assigned_to. cbn [linters set_linters]. rewrite lookup_insert_eq.
  pose proof (build_linters_syntax v token (map_to_list (languages w)))
    as Hall.
  rewrite Hb in Hall. apply Forall_cons_1 in Hall as [Hx _].
  by apply bool_decide_eq_true_2.
Qed.

End Registry.

(** ** Sections: [lint_view] *)

Section Sections.
Context `{Collaborators}.











(** [lint_view] does not catch the exception either: when the first
    instance of the view is linted on the whole text and its definition
    is incomplete, [lint_view] raises, and no checker has been called. *)
Lemma lint_view_lets_not_implemented_through (w : World) (vid : Z)
    (fname : option string) (code : string)
    (sections : gmap string (list section)) (self : Linter)
    (rest : list Linter) :
  linters w !! vid = Some (self :: rest) →
  truthy (default VNone
            ((settings_of (plugins w) (languages w) self).1 !! "disable"))
  = false →
  truthy_str (selector (klass self)) = false →
  code ≠ "" → complete self = false →
  (lint_view vid fname code sections w).1 = Raise NotImplementedError
  ∧ invoked (lint_view vid fname code sections w).2 = invoked w.
Proof.
  intros Hl Hdis Hsel Hne Hc. unfold lint_view. rewrite Hl.
  cbn [lint_all_whole]. unfold lint_whole.
  destruct (settings_of _ _ _) as [st langs]. cbn [fst] in Hdis.
  rewrite Hdis, Hsel. cbn [negb].
  destruct (pre_lint_incomplete code None (set_filename fname self) Hne Hc)
    as [Hr Hcalls].
  destruct (pre_lint code None (set_filename fname self)) as [[r s1] calls].
  cbn in Hr, Hcalls. subst r calls. cbn. by rewrite app_nil_r.
Qed.

End Sections.

(** ** The properties on the concrete host *)

Section Concrete.
#[local] Existing Instance Fixture.host.

Example find_errors_per_line :
  find_errors false (regex Fixture.colon_linter) Fixture.three_lines
  = [ split_match (Fixture.colon_match "3:5: bad indent");
      Ret (None, None, ColNone, Some "", None);
      split_match (Fixture.colon_match "7:1: unused var") ].
Proof. vm_compute. reflexivity. Qed.

Example lint_three_lines :
  errors (pre_lint Fixture.three_lines None Fixture.colon_linter).1.2
  = Some {[ Some 2%Z := ["bad indent"]; Some 6%Z := ["unused var"] ]}.
Proof. vm_compute. reflexivity. Qed.

(** C2, as stated, fails: the first [assign] of a Python view returns the
    set it built, the second returns [None]. *)
Lemma assign_second_call_returns_none :
  (assign Fixture.python_view Fixture.world0).1
  = Some [Fixture.colon_linter]
  ∧ (assign Fixture.python_view
       (assign Fixture.python_view Fixture.world0).2).1 = None
  ∧ (assign Fixture.python_view
       (assign Fixture.python_view Fixture.world0).2).1
    ≠ (assign Fixture.python_view Fixture.world0).1.
Proof.
  split; [vm_compute; reflexivity|].
  split; [vm_compute; reflexivity|].
  vm_compute. discriminate.
Qed.

(** C5, as stated, fails: a match without a row is recorded, under the
    key [None], and the highlight is asked for the line [None]. *)
Lemma lint_step_match_without_row_is_recorded :
  errors (lint_step "" (Some Fixture.match_3_5, None, ColNone, Some "msg",
                        None)
            (set_errors (Some ∅) Fixture.colon_linter)).2
  = Some {[ None := ["msg"] ]}
  ∧ Fixture.m_marks
      (highlight
         (lint_step "" (Some Fixture.match_3_5, None, ColNone, Some "msg",
                        None)
            (set_errors (Some ∅) Fixture.colon_linter)).2)
    = [Fixture.MarkLine None]
  ∧ lint_step "" (Some Fixture.match_3_5, None, ColNone, Some "msg", None)
      (set_errors (Some ∅) Fixture.colon_linter)
    ≠ (Ret (), set_errors (Some ∅) Fixture.colon_linter).
Proof.
  split; [vm_compute; reflexivity|]. split; [vm_compute; reflexivity|].
  vm_compute. discriminate.
Qed.

Lemma lint_step_absent_row_witness :
  lint_step "" (Some Fixture.match_3_5, None, ColNone, Some "msg", None)
    (set_errors (Some ∅) Fixture.colon_linter)
  = (Ret (),
     set_errors
       (Some (<[None := default []
                          ((∅ : gmap (option Z) (list string)) !! None)
                        ++ [str_of (Some "msg")]]> ∅))
       (set_highlight
          (hl_line None
             (highlight (set_errors (Some ∅) Fixture.colon_linter)))
          (set_errors (Some ∅) Fixture.colon_linter))).
Proof.
  apply (lint_step_absent_row "" (Some Fixture.match_3_5) ColNone
           (Some "msg") None (set_errors (Some ∅) Fixture.colon_linter) ∅).
  reflexivity.
Defined.

(** C3 (the code departs from the claim): with tab width 4, the line
    [tab_foo] and a match on row 0 with the reported column 5, the loop
    body computes no corrected column: line 225 raises [NameError]
    ([xrange] is not bound), before [highlight.range] and [error], and
    nothing is recorded. A whole pass over an output with a column stops
    the same way. *)
Theorem tab_correction_raises_name_error :
  tab_size (klass Fixture.tabs_linter) = 4%Z
  ∧ lint_step tab_foo
      (Some Fixture.match_3_5, Some 0%Z, ColInt 5, Some "msg", None)
      (set_errors (Some ∅) Fixture.tabs_linter)
    = (Raise NameError, set_errors (Some ∅) Fixture.tabs_linter)
  ∧ (pre_lint "1:6: msg" None Fixture.tabs_linter).1.1 = Raise NameError
  ∧ errors (pre_lint "1:6: msg" None Fixture.tabs_linter).1.2 = Some ∅.
Proof. repeat split; vm_compute; reflexivity. Qed.

(** C6, as stated, fails: an instance whose pattern did not compile
    lacks a compiled pattern, and [lint] does not raise
    [NotImplementedError] on it; it runs the checker and raises
    [AttributeError]. *)
Lemma lint_without_compiled_pattern_not_not_implemented :
  has_compiled_pattern Fixture.broken_linter = false
  ∧ (lint "x" Fixture.broken_linter).1.1 = Raise AttributeError
  ∧ ¬ ((lint "x" Fixture.broken_linter).1.1 = Raise NotImplementedError
       ↔ language_truth (language (klass Fixture.broken_linter)) = false
         ∨ cmd (klass Fixture.broken_linter) = []
         ∨ has_compiled_pattern Fixture.broken_linter = false).
Proof.
  split; [vm_compute; reflexivity|]. split; [vm_compute; reflexivity|].
  intros [_ Hr]. assert (Hx : has_compiled_pattern Fixture.broken_linter
                              = false) by (vm_compute; reflexivity).
  specialize (Hr (or_intror (or_intror Hx))). revert Hr.
  vm_compute. discriminate.
Qed.



End Concrete.

(** * Further properties of the module *)

(** ** [can_lint] *)

Lemma lower_char_idempotent (c : ascii) :
  lower_char (lower_char c) = lower_char c.
Proof. destruct c as [[] [] [] [] [] [] [] []]; reflexivity. Qed.

Lemma lower_idempotent (s : string) : lower (lower s) = lower s.
Proof.
  unfold lower. rewrite list_ascii_of_string_of_list_ascii.
  f_equal. rewrite <- list_fmap_compose. apply list_fmap_ext.
  intros i c _. apply lower_char_idempotent.
Qed.

Section CanLint.
Context `{Collaborators}.

(** X1: [can_lint] does not see the case of the syntax it is asked
    about. *)
Theorem can_lint_ignores_case (a : Attrs) (lang : string) :
  can_lint a (lower lang) = can_lint a lang.
Proof. unfold can_lint. by rewrite lower_idempotent. Qed.

(** X2: the declared language is compared as it is written: a class whose
    language string is not in lower case answers true for no syntax. *)
Theorem can_lint_never_for_mixed_case_language (a : Attrs) (s lang : string) :
  language a = LangStr s → lower s ≠ s →
  can_lint a lang ≠ Some true.
Proof.
  intros Hl Hs. unfold can_lint. rewrite Hl.
  destruct (language_truth _); [|done].
  intros [= Hb]. apply bool_decide_eq_true in Hb.
  apply Hs. rewrite <- Hb. apply lower_idempotent.
Qed.

(** [can_lint] answers true exactly when the lower-cased syntax is the
    declared language, or one of the declared languages. *)
Theorem can_lint_true_iff (a : Attrs) (lang : string) :
  can_lint a lang = Some true
  ↔ match language a with
    | LangStr s => s ≠ "" ∧ lower lang = s
    | LangSeq l => lower lang ∈ l
    end.
Proof.
  unfold can_lint. destruct (language a) as [s|l]; cbn.
  - destruct (String.eqb_spec s "") as [-> |Hne]; cbn.
    + split; [done|]. intros [? _]. done.
    + split.
      * intros [= Hb]. by apply bool_decide_eq_true in Hb.
      * intros [_ Hb]. f_equal. by apply bool_decide_eq_true.
  - destruct l as [|x l]; cbn.
    + split; [done|]. intros Hin. by apply elem_of_nil in Hin.
    + split.
      * intros [= Hb]. by apply bool_decide_eq_true in Hb.
      * intros Hb. f_equal. by apply bool_decide_eq_true.
Qed.

End CanLint.

(** ** [split_match] *)

(** X3: [split_match] raises [KeyError] exactly when the pattern has no
    group named [line], and the key it reports is [line]: the groups
    [error], [col] and [near] have defaults, the row has none under the
    key that is read. *)
Theorem split_match_key_error_iff (mt : Match) :
  (∃ k, split_match (Some mt) = Raise (KeyError k))
  ↔ groupdict mt !! "line" = None.
Proof.
  unfold split_match, getitem.
  assert (Herr : ∃ v, (groupdict mt ∪ split_defaults) !! "error" = Some v).
  { rewrite lookup_union. destruct (groupdict mt !! "error"); eauto. }
  assert (Hcol : ∃ v, (groupdict mt ∪ split_defaults) !! "col" = Some v).
  { rewrite lookup_union. destruct (groupdict mt !! "col"); eauto. }
  assert (Hnear : ∃ v, (groupdict mt ∪ split_defaults) !! "near" = Some v).
  { rewrite lookup_union. destruct (groupdict mt !! "near"); eauto. }
  assert (Hline : (groupdict mt ∪ split_defaults) !! "line"
                  = groupdict mt !! "line").
  { rewrite lookup_union. by destruct (groupdict mt !! "line"). }
  destruct Herr as [e ->], Hcol as [c ->], Hnear as [n ->]. rewrite Hline.
  destruct (groupdict mt !! "line") as [row|]; cbn.
  - split; [|done]. intros [k Hk]. exfalso.
    destruct (int_of row) as [r|e1] eqn:Hr; cbn in Hk.
    + destruct (truthy_str c); cbn in Hk; [|done].
      destruct (int_of c) as [c'|e2] eqn:Hc; cbn in Hk; [done|].
      injection Hk as ->. apply int_of_raise in Hc as [?|?]; done.
    + injection Hk as ->. apply int_of_raise in Hr as [?|?]; done.
  - split; [done|]. intros _. by exists "line".
Qed.

(** X4: whatever a match captured, [split_match] either raises or returns
    that match with an integer row; only for [None] does it return the
    placeholder, whose row is absent and whose message is empty. *)
Theorem split_match_result_shape (m : option Match) (p : parsed) :
  split_match m = Ret p →
  match m with
  | Some mt => ∃ row col msg near, p = (Some mt, Some row, col, msg, near)
  | None => p = (None, None, ColNone, Some "", None)
  end.
Proof.
  destruct p as [[[[m' row] col] msg] near]. intros Hs.
  pose proof (split_match_row _ _ _ _ _ _ Hs) as (-> & Hrow & Hnone).
  destruct m as [mt|].
  - destruct Hrow as [_ [r ->]]; eauto 10.
  - destruct (Hnone eq_refl) as (-> & -> & ->).
    destruct row as [r|]; [|done].
    destruct Hrow as [[? ?] _]; [eauto|done].
Qed.

(** ** One pass of an instance *)

Lemma splitlines_from_pending (l cur : list ascii) :
  cur ≠ [] → splitlines_from cur l ≠ [].
Proof.
  revert cur. induction l as [|c rest IH]; intros cur Hcur; cbn.
  - by destruct cur.
  - destruct (Nat.eqb _ 13); [destruct rest as [|c' rest']; [done|];
      by destruct (Nat.eqb _ 10)|].
    destruct (is_linebreak c); [done|]. by apply IH.
Qed.

(** A text that is not empty has at least one line. *)
Lemma splitlines_nonempty (s : string) : s ≠ "" → splitlines s ≠ [].
Proof.
  intros Hs. unfold splitlines.
  destruct s as [|c s]; [done|]. cbn [list_ascii_of_string].
  intros Hnil. apply fmap_nil_inv in Hnil. revert Hnil.
  cbn [splitlines_from].
  destruct (Nat.eqb _ 13); [destruct (list_ascii_of_string s) as [|c' rest'];
    [done|]; by destruct (Nat.eqb _ 10)|].
  destruct (is_linebreak c); [done|]. by apply splitlines_from_pending.
Qed.

Section Passes.
Context `{Collaborators}.

Lemma lint_loop_app (code : string) (items1 items2 : list (res parsed)) :
  ∀ self s1,
    lint_loop code items1 self = (Ret (), s1) →
    lint_loop code (items1 ++ items2) self = lint_loop code items2 s1.
Proof.
  induction items1 as [|r items1 IH]; intros self s1; cbn.
  - by intros [= ->].
  - destruct r as [p|e]; [|done].
    destruct (lint_step code p self) as [[u|e] s0]; [|done]. apply IH.
Qed.

(** X7: when the generator raises in the middle of the output, the pass
    stops there with that exception; what the results before it recorded
    stays in the instance and the results after it are not looked at. *)
Theorem lint_loop_stops_at_first_raise (code : string)
    (before after : list (res parsed)) (e : exn) (self s1 : Linter) :
  lint_loop code before self = (Ret (), s1) →
  lint_loop code (before ++ Raise e :: after) self = (Raise e, s1).
Proof. intros Hb. by rewrite (lint_loop_app _ _ _ _ _ Hb). Qed.

Lemma error_errors (line : option Z) (msg : option string) (self : Linter)
    (d : gmap (option Z) (list string)) :
  errors self = Some d →
  (error line msg self).1 = Ret ()
  ∧ errors (error line msg self).2
    = Some (<[line := default [] (d !! line) ++ [str_of msg]]> d).
Proof.
  intros Hd. unfold error. cbn. rewrite Hd. cbn. split; [done|].
  by destruct (d !! line).
Qed.

Lemma lint_step_errors (code : string) (mt : Match) (r : Z) (col : column)
    (msg near : option string) (self : Linter)
    (d : gmap (option Z) (list string)) :
  (tab_size (klass self) ≤ 1)%Z →
  errors self = Some d →
  (lint_step code (Some mt, Some r, col, msg, near) self).1 = Ret ()
  ∧ errors (lint_step code (Some mt, Some r, col, msg, near) self).2
    = Some (<[Some r := default [] (d !! Some r) ++ [str_of msg]]> d)
  ∧ klass (lint_step code (Some mt, Some r, col, msg, near) self).2
    = klass self.
Proof.
  intros Hts Hd. unfold lint_step.
  destruct (mark_position_cases code (Some r) col near self)
    as [(_ & Hgt & _)|[h ->]]; [lia|].
  destruct (error_errors (Some r) msg (set_highlight h self) d Hd)
    as [Hr He].
  split; [done|]. split; [done|].
  unfold error. cbn. by destruct (errors self).
Qed.

(** X8: for an instance whose tab size is at most 1 (the default), over
    results that do not raise, the loop returns normally and leaves
    under every row the messages it held before followed by the messages
    of the matches on that row, in the order of the output; rows without
    a match keep what they had. *)
Theorem lint_loop_appends_messages_in_order (code : string)
    (ps : list parsed) :
  ∀ (self : Linter) (d : gmap (option Z) (list string)),
    (tab_size (klass self) ≤ 1)%Z →
    Forall well_formed ps →
    errors self = Some d →
    ∃ s1 d1,
      lint_loop code (Ret <$> ps) self = (Ret (), s1)
      ∧ errors s1 = Some d1
      ∧ d1 !! None = d !! None
      ∧ ∀ r : Z,
          d1 !! Some r
          = match messages_at r ps with
            | [] => d !! Some r
            | msgs => Some (default [] (d !! Some r) ++ msgs)
            end.
Proof.
  induction ps as [|p ps IH]; intros self d Hts Hwf Hd.
  - exists self, d. cbn. done.
  - apply Forall_cons_1 in Hwf as [Hp Hwf].
    destruct p as [[[[m row] col] msg] near]. cbn in Hp.
    destruct m as [mt|].
    + destruct Hp as [_ [r0 ->]]; [eauto|].
      destruct (lint_step_errors code mt r0 col msg near self d Hts Hd)
        as (Hr & He & Hk).
      cbn [fmap list_fmap lint_loop].
      destruct (lint_step code (Some mt, Some r0, col, msg, near) self)
        as [u s0]. cbn in Hr, He, Hk. subst u.
      rewrite <- Hk in Hts.
      destruct (IH s0 _ Hts Hwf He) as (s1 & d1 & Hl & Hd1 & HN & Hall).
      exists s1, d1. split; [done|]. split; [done|].
      split; [by rewrite HN, lookup_insert_ne|].
      intros r. rewrite Hall. cbn [messages_at].
      case_bool_decide as Hr0.
      * subst r0. rewrite lookup_insert_eq.
        destruct (messages_at r ps) as [|x l]; [done|].
        unfold default. cbn [from_option id]. by rewrite <- app_assoc.
      * rewrite lookup_insert_ne by congruence. done.
    + destruct row as [r0|].
      { destruct Hp as [[? ?] _]; [eauto|done]. }
      cbn [fmap list_fmap lint_loop lint_step].
      destruct (IH self d Hts Hwf Hd) as (s1 & d1 & Hl & Hd1 & HN & Hall).
      exists s1, d1. done.
Qed.

End Passes.

Section Binding.
Context `{Collaborators}.

Lemma error_binding (line : option Z) (msg : option string) (self : Linter) :
  binding (error line msg self).2 = binding self.
Proof. unfold error. cbn. by destruct (errors self). Qed.

Lemma lint_step_binding (code : string) (p : parsed) (self : Linter) :
  binding (lint_step code p self).2 = binding self.
Proof.
  destruct p as [[[[m row] col] msg] near]. unfold lint_step.
  destruct m; [|done].
  destruct (mark_position_cases code row col near self)
    as [(-> & _)|[h ->]]; [done|].
  by rewrite error_binding.
Qed.

Lemma lint_loop_binding (code : string) (items : list (res parsed)) :
  ∀ self, binding (lint_loop code items self).2 = binding self.
Proof.
  induction items as [|r items IH]; intros self; [done|]. cbn.
  destruct r as [p|e]; [|done].
  pose proof (lint_step_binding code p self) as Hs.
  destruct (lint_step code p self) as [[u|e] s0]; [|done].
  by rewrite IH.
Qed.

Lemma lint_binding (code : string) (self : Linter) :
  binding (lint code self).1.2 = binding self.
Proof.
  unfold lint. destruct (negb (complete self)); [done|].
  destruct (negb _); [|done].
  pose proof (lint_loop_binding code
                (find_errors (multiline (klass self)) (regex self)
                   (communicate (cmd (klass self)) code)) self) as Hl.
  by destruct (lint_loop _ _ _).
Qed.

Lemma pre_lint_binding (code : string) (hl : option Highlight)
    (self : Linter) :
  binding (pre_lint code hl self).1.2 = binding self.
Proof.
  unfold pre_lint. set (s1 := set_highlight _ _).
  assert (Hs1 : binding s1 = binding self) by done.
  destruct (String.eqb code ""); [done|].
  destruct (needs_api _); by rewrite lint_binding.
Qed.

(** X9: a pass changes nothing of an instance but its [errors] and its
    [highlight]: class, view, syntax, file name, pattern and flags are
    after [pre_lint] what they were before, whether it returns or
    raises. *)
Theorem pre_lint_keeps_binding (code : string) (hl : option Highlight)
    (self : Linter) :
  klass (pre_lint code hl self).1.2 = klass self
  ∧ view (pre_lint code hl self).1.2 = view self
  ∧ syntax (pre_lint code hl self).1.2 = syntax self
  ∧ filename (pre_lint code hl self).1.2 = filename self
  ∧ regex (pre_lint code hl self).1.2 = regex self
  ∧ flags (pre_lint code hl self).1.2 = flags self.
Proof.
  pose proof (pre_lint_binding code hl self) as Hb.
  unfold binding in Hb. by injection Hb as -> -> -> -> -> ->.
Qed.



(** X11: an instance whose pattern was left uncompiled (a non-empty
    source text) passes the test of line 209; [lint] then runs the checker
    and, as soon as the checker printed anything, raises
    [AttributeError] on the first use of the pattern. *)
Theorem lint_uncompiled_pattern_raises (code src : string) (self : Linter) :
  regex self = RegexSource src →
  complete self = true →
  communicate (cmd (klass self)) code ≠ "" →
  lint code self
  = (Raise AttributeError, self, [(cmd (klass self), code)]).
Proof.
  intros Hrx Hc Hout. unfold lint. rewrite Hc. cbn [negb].
  apply String.eqb_neq in Hout as Hout'. rewrite Hout'. cbn [negb].
  unfold find_errors. rewrite Hrx.
  destruct (multiline (klass self)); [done|].
  pose proof (splitlines_nonempty _ Hout) as Hlines.
  destruct (splitlines _) as [|l ls]; [done|]. reflexivity.
Qed.

End Binding.

(** ** Settings of a class *)

Lemma union_nonempty_r (o d : settings_dict) : d ≠ ∅ → o ∪ d ≠ ∅.
Proof.
  intros Hd Hu. apply Hd. apply map_empty. intros k.
  apply (f_equal (.!! k)) in Hu. rewrite lookup_empty in Hu.
  by apply lookup_union_None in Hu as [_ ?].
Qed.

Lemma get_settings_fst (plugs : gmap string settings_dict)
    (c : LinterClass) :
  (get_settings plugs c).1
  = default ∅ (plugs !! name (attrs c)) ∪ default ∅ (defaults c).
Proof.
  unfold get_settings. destruct (defaults c) as [d|]; [|done].
  case_bool_decide as He; [by subst d|done].
Qed.

(** X12: [get_settings] returns the defaults of the class overridden by
    the plugin settings stored under its name; and once it has been
    called, calling it again returns the same dictionary and changes the
    class no further. *)
Theorem get_settings_value_and_stability
    (plugs : gmap string settings_dict) (c : LinterClass) :
  (get_settings plugs c).1
  = default ∅ (plugs !! name (attrs c)) ∪ default ∅ (defaults c)
  ∧ get_settings plugs (get_settings plugs c).2 = get_settings plugs c.
Proof.
  unfold get_settings.
  set (o := default ∅ (plugs !! name (attrs c))).
  destruct (defaults c) as [d|] eqn:Hd; cbn.
  - case_bool_decide as He.
    + subst d. cbn. rewrite Hd. split; [done|].
      by rewrite bool_decide_eq_true_2.
    + cbn. split; [done|].
      rewrite (bool_decide_eq_false_2 (o ∪ d = ∅))
        by (by apply union_nonempty_r).
      fold o. rewrite (assoc_L (∪)), (idemp_L (∪) o). done.
  - rewrite Hd. done.
Qed.

(** X13: the loop of [reload] gives a class registered under its own name
    the settings that [get_settings] returns for it, and leaves its
    declaration and its defaults as they were. *)
Theorem reload_languages_settings (plugs : gmap string settings_dict)
    (langs : gmap string LinterClass) (c : LinterClass) :
  langs !! name (attrs c) = Some c →
  ∃ c', reload_languages plugs langs !! name (attrs c) = Some c'
        ∧ lint_settings c' = Some (get_settings plugs c).1
        ∧ defaults c' = defaults c
        ∧ attrs c' = attrs c.
Proof.
  intros Hc. unfold reload_languages. rewrite map_lookup_imap, Hc. cbn.
  eexists. split; [reflexivity|]. cbn. split; [|done].
  f_equal. symmetry. apply get_settings_fst.
Qed.

(** ** The registry, further *)

Section RegistryMore.
Context `{Collaborators}.

(** X14: [remove] deletes the entry of the view and no other, records
    every instance the view had as cleared, and is a no-op the second
    time. *)
Theorem remove_effects (vid : Z) (w : World) :
  linters (remove vid w) = delete vid (linters w)
  ∧ cleared (remove vid w) = cleared w ++ get_linters vid w
  ∧ get_linters vid (remove vid w) = []
  ∧ remove vid (remove vid w) = remove vid w.
Proof.
  split; [|split; [|split]].
  - unfold remove. destruct (linters w !! vid) eqn:Hl; [done|].
    by rewrite delete_id.
  - unfold remove, get_linters. destruct (linters w !! vid); [done|].
    by rewrite app_nil_r.
  - unfold get_linters. by rewrite remove_lookup.
  - apply remove_idempotent.
Qed.

Lemma build_linters_filter (v : View) (token : string)
    (classes : list (string * LinterClass)) :
  build_linters v token classes
  = (λ e : string * LinterClass,
       init (attrs e.2) v token (view_file_name v))
      <$> filter (λ e : string * LinterClass,
                    can_lint (attrs e.2) token = Some true) classes.
Proof.
  unfold build_linters.
  assert (Hgen : ∀ acc,
    foldl (λ acc (entry : string * LinterClass),
             if bool_decide (can_lint (attrs entry.2) token = Some true)
             then acc ++ [init (attrs entry.2) v token (view_file_name v)]
             else acc) acc classes
    = acc ++ ((λ e : string * LinterClass,
                 init (attrs e.2) v token (view_file_name v))
                <$> filter (λ e : string * LinterClass,
                              can_lint (attrs e.2) token = Some true)
                      classes)).
  { induction classes as [|c classes IH]; intros acc.
    - cbn. by rewrite app_nil_r.
    - cbn [foldl]. rewrite IH, filter_cons.
      case_bool_decide as Hc.
      + rewrite decide_True by done. cbn. by rewrite <- app_assoc.
      + by rewrite decide_False. }
  apply (Hgen []).
Qed.

(** What [assign] returns when it returns a set. *)
Lemma assign_some (v : View) (w : World) (ls : list Linter) :
  (assign v w).1 = Some ls →
  truthy_str (view_syntax v) = true
  ∧ ls = build_linters v (syntax_token (default "" (view_syntax v)))
           (map_to_list (languages w))
  ∧ ls ≠ []
  ∧ (assign v w).2 = set_linters (<[view_id v := ls]> (linters w)) w.
Proof.
  unfold assign. destruct (truthy_str (view_syntax v)); [|done].
  cbn [negb]. destruct (negb _); [|done].
  destruct (assigned_to _ _ _); [done|].
  destruct (build_linters _ _ _) as [|x l] eqn:Hb; [done|].
  cbn. intros [= <-]. done.
Qed.

(** X15: the set [assign] returns is not empty, is stored under the id of
    the view, and holds exactly the new instances, bound to the view, its
    canonical syntax and its file name, of the registered classes whose
    [can_lint] accepts that syntax. *)
Theorem assign_returns_capable_classes (v : View) (w : World)
    (ls : list Linter) :
  (assign v w).1 = Some ls →
  ls ≠ []
  ∧ linters (assign v w).2 !! view_id v = Some ls
  ∧ ∀ x, x ∈ ls
         ↔ ∃ nm c,
             languages w !! nm = Some c
             ∧ can_lint (attrs c)
                 (syntax_token (default "" (view_syntax v))) = Some true
             ∧ x = init (attrs c) v
                     (syntax_token (default "" (view_syntax v)))
                     (view_file_name v).
Proof.
  intros Ha. apply assign_some in Ha as (_ & Hls & Hne & ->).
  split; [done|]. split; [apply lookup_insert_eq|].
  intros x. rewrite Hls, build_linters_filter, list_elem_of_fmap. split.
  - intros ([nm c] & -> & Hin). apply list_elem_of_filter in Hin as [Hc Hin].
    apply elem_of_map_to_list in Hin. exists nm, c. done.
  - intros (nm & c & Hl & Hc & ->). exists (nm, c). split; [done|].
    apply list_elem_of_filter. split; [done|].
    by apply elem_of_map_to_list.
Qed.

(** X16: [assign] touches the entry of its own view only, and of the
    other tables nothing: the instances of every other view, the classes,
    the plugin settings and the records of calls and callbacks are as
    before. *)
Theorem assign_other_views_untouched (v : View) (w : World) :
  delete (view_id v) (linters (assign v w).2)
  = delete (view_id v) (linters w)
  ∧ languages (assign v w).2 = languages w
  ∧ plugins (assign v w).2 = plugins w
  ∧ invoked (assign v w).2 = invoked w
  ∧ delivered (assign v w).2 = delivered w.
Proof.
  assert (Hrem : ∀ w0 : World,
            delete (view_id v) (linters (remove (view_id v) w0))
            = delete (view_id v) (linters w0)
            ∧ languages (remove (view_id v) w0) = languages w0
            ∧ plugins (remove (view_id v) w0) = plugins w0
            ∧ invoked (remove (view_id v) w0) = invoked w0
            ∧ delivered (remove (view_id v) w0) = delivered w0).
  { intros w0. unfold remove. destruct (linters w0 !! view_id v); [|done].
    cbn. by rewrite delete_delete_eq. }
  unfold assign. destruct (truthy_str (view_syntax v)); [|apply Hrem].
  cbn [negb]. destruct (negb _); [|apply Hrem].
  destruct (assigned_to _ _ _); [done|].
  destruct (build_linters _ _ _) as [|x l]; [apply Hrem|].
  cbn. by rewrite delete_insert_eq.
Qed.

(** X17: when [assign] builds a new set for a view, the instances the
    view had before are dropped from the registry without being cleared:
    [cleared] is as it was. *)
Theorem assign_replaces_without_clearing (v : View) (w : World)
    (ls : list Linter) :
  (assign v w).1 = Some ls →
  cleared (assign v w).2 = cleared w.
Proof. intros Ha. by apply assign_some in Ha as (_ & _ & _ & ->). Qed.

(** X18: a view without a syntax setting, or with an empty one, ends with
    no instance: [assign] returns [None] and the entry of the view is
    gone, its instances cleared. *)
Theorem assign_without_syntax_detaches (v : View) (w : World) :
  truthy_str (view_syntax v) = false →
  (assign v w).1 = None
  ∧ get_linters (view_id v) (assign v w).2 = []
  ∧ cleared (assign v w).2 = cleared w ++ get_linters (view_id v) w.
Proof.
  intros Hs. rewrite (assign_removes v w) by auto. cbn [fst snd].
  split; [done|]. split.
  - unfold get_linters. by rewrite remove_lookup.
  - unfold remove, get_linters. destruct (linters w !! view_id v); [done|].
    by rewrite app_nil_r.
Qed.

(** X19: after a successful [assign], [get_view] finds the view again
    under its id. *)
Theorem get_view_after_assign (v : View) (w : World) (ls : list Linter) :
  (assign v w).1 = Some ls →
  get_view (view_id v) (assign v w).2 = Ret (Some v).
Proof.
  intros Ha. apply assign_some in Ha as (_ & Hls & Hne & ->).
  unfold get_view. cbn [linters set_linters]. rewrite lookup_insert_eq.
  destruct ls as [|x l]; [done|].
  assert (Hin : x ∈ build_linters v
                     (syntax_token (default "" (view_syntax v)))
                     (map_to_list (languages w))).
  { rewrite <- Hls. apply list_elem_of_here. }
  rewrite build_linters_filter in Hin.
  apply list_elem_of_fmap in Hin as (e & -> & _). reflexivity.
Qed.

End RegistryMore.

(** ** The canonical syntax *)

Lemma chars_app (a b : string) :
  list_ascii_of_string (String.append a b)
  = list_ascii_of_string a ++ list_ascii_of_string b.
Proof. induction a as [|c a IH]; simpl; [done|by f_equal]. Qed.

Lemma drop_suffix_app (pre suffix : list ascii) :
  drop_suffix suffix (pre ++ suffix) = Some pre.
Proof.
  unfold drop_suffix.
  replace (List.length (pre ++ suffix) - List.length suffix)%nat
    with (List.length pre) by (rewrite length_app; lia).
  rewrite decide_True.
  - by rewrite take_app_length.
  - split; [rewrite length_app; lia|]. by rewrite drop_app_length.
Qed.

Lemma after_last_slash_app (l : list ascii) :
  ∀ cur rest, "/"%char ∉ l →
    after_last_slash cur (l ++ "/"%char :: rest) = Some (rev l ++ cur).
Proof.
  induction l as [|c l IH]; intros cur rest Hl; [done|].
  cbn [app after_last_slash].
  apply not_elem_of_cons in Hl as [Hc Hl].
  destruct (Ascii.eqb_spec c "/") as [-> |_]; [done|].
  rewrite IH by done. cbn [rev]. by rewrite <- app_assoc.
Qed.

Lemma syntax_re_search_nonempty (syn g : string) :
  syntax_re_search syn = Some g → g ≠ "".
Proof.
  unfold syntax_re_search.
  destruct (match drop_suffix _ _ with Some b => Some b | None => _ end)
    as [b|]; cbn; [|done].
  destruct (after_last_slash [] (rev b)) as [[|c l]|]; cbn; [done| |done].
  by intros [= <-].
Qed.

(** X20: the canonical token of a syntax setting that is not empty is
    not empty either, so the test of line 84 never fails once line 73 is
    passed. *)
Theorem syntax_token_nonempty (syn : string) :
  syn ≠ "" → syntax_token syn ≠ "".
Proof.
  intros Hs. unfold syntax_token.
  destruct (syntax_re_search syn) as [g|] eqn:Hg; [|done].
  by eapply syntax_re_search_nonempty.
Qed.

Lemma syntax_token_nonempty_witness :
  syntax_token "Packages/Python/Python.tmLanguage" ≠ "".
Proof. apply syntax_token_nonempty. discriminate. Defined.

(** X21: for the path of a syntax file, [dir/Name.tmLanguage], the
    canonical token is the base name [Name]. *)
Theorem syntax_token_base_name (dir nm : string) :
  nm ≠ "" → "/"%char ∉ list_ascii_of_string nm →
  syntax_token
    (String.append dir (String "/" (String.append nm ".tmLanguage")))
  = nm.
Proof.
  intros Hne Hslash. unfold syntax_token, syntax_re_search.
  rewrite chars_app. cbn [list_ascii_of_string]. rewrite chars_app.
  set (d := list_ascii_of_string dir). set (n := list_ascii_of_string nm).
  replace (d ++ "/"%char :: n ++ list_ascii_of_string ".tmLanguage")
    with ((d ++ "/"%char :: n) ++ list_ascii_of_string ".tmLanguage")
    by (by rewrite <- app_assoc).
  rewrite drop_suffix_app. cbn [mbind option_bind].
  rewrite rev_app_distr. cbn [rev]. rewrite <- app_assoc. cbn [app].
  rewrite after_last_slash_app.
  2:{ intros Hin. apply Hslash. subst n.
      apply list_elem_of_In, in_rev, list_elem_of_In in Hin. done. }
  cbn [mbind option_bind]. rewrite rev_involutive, app_nil_r.
  subst n. destruct nm as [|c nm]; [done|].
  cbn [list_ascii_of_string]. cbn [string_of_list_ascii].
  by rewrite string_of_list_ascii_of_string.
Qed.

Lemma syntax_token_base_name_witness :
  syntax_token
    (String.append "Packages/Python"
       (String "/" (String.append "Python" ".tmLanguage")))
  = "Python".
Proof.
  apply syntax_token_base_name; [discriminate|].
  cbn [list_ascii_of_string]. rewrite !not_elem_of_cons.
  repeat split; try discriminate. apply not_elem_of_nil.
Defined.

(** ** [lint_view], further *)

Section ViewPass.
Context `{Collaborators}.

(** X22: after [remove], [assign] builds the instances of the view
    anew, whatever the view held before: it returns the set of the
    classes that can lint the syntax, or [None] when there is none. *)
Theorem assign_after_remove_rebuilds (v : View) (w : World) :
  truthy_str (view_syntax v) = true →
  (assign v (remove (view_id v) w)).1
  = match build_linters v (syntax_token (default "" (view_syntax v)))
            (map_to_list (languages w)) with
    | [] => None
    | ls => Some ls
    end.
Proof.
  intros Hs. unfold assign. rewrite Hs. cbn [negb].
  assert (Htok : syntax_token (default "" (view_syntax v)) ≠ "").
  { destruct (view_syntax v) as [s|]; [|done]. cbn.
    destruct (String.eqb_spec s "") as [-> |Hne]; [done|].
    destruct (syntax_re_search s) as [g|] eqn:Hg.
    - unfold syntax_token. rewrite Hg. by eapply syntax_re_search_nonempty.
    - unfold syntax_token. by rewrite Hg. }
  apply String.eqb_neq in Htok. rewrite Htok. cbn [negb].
  unfold assigned_to. rewrite remove_lookup, remove_languages.
  by destruct (build_linters _ _ _).
Qed.

Lemma lint_all_whole_length (fname : option string) (code : string)
    (plugs : gmap string settings_dict) (ls : list Linter) :
  ∀ langs,
    List.length (lint_all_whole fname code plugs langs ls).1.1.2
    = List.length ls.
Proof.
  induction ls as [|l ls IH]; intros langs; [done|]. cbn [lint_all_whole].
  destruct (lint_whole fname code plugs langs l) as [[[r l'] calls] langs'].
  destruct r as [u|e]; [|done].
  specialize (IH langs').
  destruct (lint_all_whole fname code plugs langs' ls)
    as [[[r' rest] calls'] langs'']. cbn in *. by rewrite IH.
Qed.

Lemma lint_all_selectors_length (code : string)
    (sections : gmap string (list section)) (ls : list Linter) :
  List.length (lint_all_selectors code sections ls).1.2 = List.length ls.
Proof.
  induction ls as [|l ls IH]; [done|]. cbn [lint_all_selectors].
  destruct (lint_all_selectors code sections ls) as [[r' rest] calls'].
  destruct (truthy_str _).
  - destruct (lint_selector code sections l) as [[r l'] calls].
    destruct r as [u|e]; [|done]. cbn in *. by rewrite IH.
  - cbn in *. by rewrite IH.
Qed.

(** X23: [lint_view] touches the entry of its own view only; the
    instances of the other views, the plugin settings and the record of
    cleared instances are as before, and the view keeps as many instances
    as it had. *)
Theorem lint_view_other_views_untouched (vid : Z) (fname : option string)
    (code : string) (sections : gmap string (list section)) (w : World) :
  delete vid (linters (lint_view vid fname code sections w).2)
  = delete vid (linters w)
  ∧ plugins (lint_view vid fname code sections w).2 = plugins w
  ∧ cleared (lint_view vid fname code sections w).2 = cleared w
  ∧ List.length (get_linters vid (lint_view vid fname code sections w).2)
    = List.length (get_linters vid w).
Proof.
  unfold lint_view, get_linters.
  destruct (linters w !! vid) as [ls|] eqn:Hl; [|cbn; by rewrite Hl].
  pose proof (lint_all_whole_length fname code (plugins w) ls (languages w))
    as Hlen1.
  destruct (lint_all_whole fname code (plugins w) (languages w) ls)
    as [[[r ls1] calls] langs]. cbn in Hlen1.
  destruct r as [u|e].
  2:{ cbn. by rewrite delete_insert_eq, lookup_insert_eq. }
  pose proof (lint_all_selectors_length code sections ls1) as Hlen2.
  destruct (lint_all_selectors code sections ls1) as [[r2 ls2] calls2].
  cbn in Hlen2.
  destruct r2 as [u2|e2].
  2:{ cbn. rewrite delete_insert_eq, lookup_insert_eq. split; [done|].
      split; [done|]. split; [done|]. congruence. }
  destruct ls2 as [|first rest].
  - cbn. rewrite delete_insert_eq, lookup_insert_eq. split; [done|].
    split; [done|]. split; [done|]. congruence.
  - cbn. rewrite delete_insert_eq, lookup_insert_eq. split; [done|].
    split; [done|]. split; [done|]. congruence.
Qed.

(** X24: the callback is called once when [lint_view] returns for a view
    that has instances, with the view of the first instance and the
    instances as the pass left them; it is not called when [lint_view]
    raises, nor for a view without entry, which [lint_view] leaves
    alone. *)
Theorem lint_view_callback (vid : Z) (fname : option string)
    (code : string) (sections : gmap string (list section)) (w : World) :
  match (lint_view vid fname code sections w).1, linters w !! vid with
  | Ret _, Some _ =>
      ∃ first rest,
        linters (lint_view vid fname code sections w).2 !! vid
        = Some (first :: rest)
        ∧ delivered (lint_view vid fname code sections w).2
          = delivered w ++ [(view first, first :: rest)]
  | Ret _, None => (lint_view vid fname code sections w).2 = w
  | Raise _, _ =>
      delivered (lint_view vid fname code sections w).2 = delivered w
  end.
Proof.
  unfold lint_view.
  destruct (linters w !! vid) as [ls|] eqn:Hl; [|done].
  destruct (lint_all_whole fname code (plugins w) (languages w) ls)
    as [[[r ls1] calls] langs].
  destruct r as [u|e]; [|done].
  destruct (lint_all_selectors code sections ls1) as [[r2 ls2] calls2].
  destruct r2 as [u2|e2]; [|done].
  destruct ls2 as [|first rest]; [done|].
  cbn. exists first, rest. by rewrite lookup_insert_eq.
Qed.




End ViewPass.

(** ** The further properties on the concrete host *)

Section ConcreteMore.
#[local] Existing Instance Fixture.host.

Lemma can_lint_never_for_mixed_case_language_witness :
  can_lint Fixture.Capitalized "Python" ≠ Some true.
Proof.
  apply (can_lint_never_for_mixed_case_language Fixture.Capitalized "Python").
  - reflexivity.
  - vm_compute. discriminate.
Defined.

Lemma split_match_result_shape_witness :
  ∃ row col msg near,
    ((Some Fixture.match_3_5, Some 2%Z, ColInt 4, Some "bad indent", None)
       : parsed)
    = (Some Fixture.match_3_5, Some row, col, msg, near).
Proof.
  apply (split_match_result_shape (Some Fixture.match_3_5)
           (Some Fixture.match_3_5, Some 2%Z, ColInt 4, Some "bad indent",
            None)).
  vm_compute. reflexivity.
Defined.

Lemma lint_loop_stops_at_first_raise_witness :
  ∃ s1,
    lint_loop ""
      ([Ret (Some Fixture.match_3_5, Some 2%Z, ColNone, Some "first", None)]
         ++ Raise ValueError
         :: [Ret (Some Fixture.match_3_5, Some 6%Z, ColNone, Some "other",
                  None)])
      (set_errors (Some ∅) Fixture.colon_linter)
    = (Raise ValueError, s1)
    ∧ errors s1 = Some {[ Some 2%Z := ["first"] ]}.
Proof.
  eexists. split.
  - apply lint_loop_stops_at_first_raise. vm_compute. reflexivity.
  - vm_compute. reflexivity.
Defined.

Lemma lint_loop_appends_messages_in_order_witness :
  ∃ s1 d1,
    lint_loop "" (Ret <$> Fixture.three_results)
      (set_errors (Some ∅) Fixture.colon_linter) = (Ret (), s1)
    ∧ errors s1 = Some d1
    ∧ d1 !! None = (∅ : gmap (option Z) (list string)) !! None
    ∧ ∀ r : Z,
        d1 !! Some r
        = match messages_at r Fixture.three_results with
          | [] => (∅ : gmap (option Z) (list string)) !! Some r
          | msgs =>
              Some (default []
                      ((∅ : gmap (option Z) (list string)) !! Some r)
                    ++ msgs)
          end.
Proof.
  apply (lint_loop_appends_messages_in_order "" Fixture.three_results
           (set_errors (Some ∅) Fixture.colon_linter) ∅).
  - vm_compute. discriminate.
  - unfold Fixture.three_results.
    repeat (apply Forall_cons; split; [cbn; split; eauto|]).
    apply Forall_nil_2.
  - reflexivity.
Defined.

Lemma lint_uncompiled_pattern_raises_witness :
  lint "x" Fixture.broken_linter
  = (Raise AttributeError, Fixture.broken_linter, [(["cat"], "x")]).
Proof.
  apply (lint_uncompiled_pattern_raises "x" "(" Fixture.broken_linter).
  - vm_compute. reflexivity.
  - vm_compute. reflexivity.
  - vm_compute. discriminate.
Defined.

Lemma reload_languages_settings_witness :
  ∃ c', reload_languages (plugins Fixture.world_disabled)
          (languages Fixture.world_disabled)
          !! name (attrs (Fixture.class_ Fixture.Colon)) = Some c'
        ∧ lint_settings c'
          = Some (get_settings (plugins Fixture.world_disabled)
                    (Fixture.class_ Fixture.Colon)).1
        ∧ defaults c' = defaults (Fixture.class_ Fixture.Colon)
        ∧ attrs c' = attrs (Fixture.class_ Fixture.Colon).
Proof.
  apply reload_languages_settings. vm_compute. reflexivity.
Defined.

Lemma assign_returns_capable_classes_witness :
  [Fixture.colon_linter] ≠ []
  ∧ linters (assign Fixture.python_view Fixture.world0).2
      !! view_id Fixture.python_view = Some [Fixture.colon_linter]
  ∧ ∀ x, x ∈ [Fixture.colon_linter]
         ↔ ∃ nm c,
             languages Fixture.world0 !! nm = Some c
             ∧ can_lint (attrs c)
                 (syntax_token
                    (default "" (view_syntax Fixture.python_view)))
               = Some true
             ∧ x = init (attrs c) Fixture.python_view
                     (syntax_token
                        (default "" (view_syntax Fixture.python_view)))
                     (view_file_name Fixture.python_view).
Proof.
  apply (assign_returns_capable_classes Fixture.python_view Fixture.world0).
  vm_compute. reflexivity.
Defined.

Lemma assign_replaces_without_clearing_witness :
  cleared (assign Fixture.retyped_view Fixture.world_python).2
  = cleared Fixture.world_python.
Proof.
  apply (assign_replaces_without_clearing Fixture.retyped_view
           Fixture.world_python
           [init Fixture.ColonEmbedded Fixture.retyped_view "HTML"
              (Some "a.py")]).
  vm_compute. reflexivity.
Defined.

Lemma assign_without_syntax_detaches_witness :
  (assign Fixture.plain_view Fixture.world_python).1 = None
  ∧ get_linters (view_id Fixture.plain_view)
      (assign Fixture.plain_view Fixture.world_python).2 = []
  ∧ cleared (assign Fixture.plain_view Fixture.world_python).2
    = cleared Fixture.world_python
      ++ get_linters (view_id Fixture.plain_view) Fixture.world_python.
Proof. apply assign_without_syntax_detaches. reflexivity. Defined.

Lemma get_view_after_assign_witness :
  get_view (view_id Fixture.python_view)
    (assign Fixture.python_view Fixture.world0).2
  = Ret (Some Fixture.python_view).
Proof.
  apply (get_view_after_assign Fixture.python_view Fixture.world0
           [Fixture.colon_linter]).
  vm_compute. reflexivity.
Defined.

Lemma assign_after_remove_rebuilds_witness :
  (assign Fixture.python_view
     (remove (view_id Fixture.python_view) Fixture.world_python)).1
  = match build_linters Fixture.python_view
            (syntax_token (default "" (view_syntax Fixture.python_view)))
            (map_to_list (languages Fixture.world_python)) with
    | [] => None
    | ls => Some ls
    end.
Proof. apply assign_after_remove_rebuilds. reflexivity. Defined.




End ConcreteMore.
